(** * File categorization tool (app.py): a shallow embedding

    The development follows the source top-down: Python string helpers,
    exceptions, the host file system interface, [get_files],
    [resolve_path], the three document generators and the Streamlit page
    script's session state. *)

From Stdlib Require Import Ascii String ZArith.
From stdpp Require Import base list strings gmap.

Local Open Scope string_scope.
Local Open Scope list_scope.

(** ** Python values used by the program *)

(** *** Strings: slicing, [startswith], [split], [join], [replace] *)

Module PyStr.

(** [s[n:]] *)
Fixpoint drop (n : nat) (s : string) : string :=
  match n, s with
  | 0, _ => s
  | S _, EmptyString => EmptyString
  | S n', String _ s' => drop n' s'
  end.

(** [s[:n]] *)
Fixpoint take (n : nat) (s : string) : string :=
  match n, s with
  | 0, _ => EmptyString
  | S _, EmptyString => EmptyString
  | S n', String c s' => String c (take n' s')
  end.

(** [s.startswith(p)] *)
Fixpoint startswith (p s : string) : bool :=
  match p, s with
  | EmptyString, _ => true
  | String _ _, EmptyString => false
  | String a p', String b s' => if decide (a = b) then startswith p' s' else false
  end.

(** [s.endswith(c)] for a one-character suffix *)
Fixpoint endswith_char (c : ascii) (s : string) : bool :=
  match s with
  | EmptyString => false
  | String a EmptyString => bool_decide (a = c)
  | String _ s' => endswith_char c s'
  end.

(** [s.split(sep)] for a one-character separator: never the empty list *)
Fixpoint split (sep : ascii) (s : string) : list string :=
  match s with
  | EmptyString => [EmptyString]
  | String c s' =>
      if decide (c = sep) then EmptyString :: split sep s'
      else match split sep s' with
           | [] => [String c EmptyString]
           | h :: t => String c h :: t
           end
  end.

(** [sep.join(l)] *)
Fixpoint join (sep : string) (l : list string) : string :=
  match l with
  | [] => EmptyString
  | [x] => x
  | x :: t => x +:+ sep +:+ join sep t
  end.

(** [s.replace(old, new, 1)]: the leftmost occurrence of [old] is
    replaced; an empty [old] matches at position 0. *)
Fixpoint replace1 (old new s : string) : string :=
  if startswith old s then new +:+ drop (String.length old) s
  else match s with
       | EmptyString => EmptyString
       | String c s' => String c (replace1 old new s')
       end.

(** [s.replace(old, new)] with no count, for a non-empty [old]: every
    non-overlapping occurrence, left to right.  Only used to tell the
    counted replacement of the program apart from the global one. *)
Fixpoint replace_all_fuel (fuel : nat) (old new s : string) : string :=
  match fuel with
  | 0 => s
  | S fuel' =>
      if startswith old s
      then new +:+ replace_all_fuel fuel' old new (drop (String.length old) s)
      else match s with
           | EmptyString => EmptyString
           | String c s' => String c (replace_all_fuel fuel' old new s')
           end
  end.

Definition replace_all (old new s : string) : string :=
  replace_all_fuel (S (String.length s)) old new s.

End PyStr.

(** *** Exceptions and results *)

Inductive exn : Type :=
| ValueError (msg : string)
| TypeError
| KeyError (key : string)
| OSError
| FileNotFoundError
| OverflowError.

Inductive Result (A : Type) : Type :=
| Ok (a : A)
| Raise (e : exn).
Arguments Ok {A} a.
Arguments Raise {A} e.

#[global] Instance result_ret : MRet Result := fun _ a => Ok a.

#[global] Instance result_bind : MBind Result := fun _ _ k r =>
  match r with
  | Ok a => k a
  | Raise e => Raise e
  end.

(** [try: body except (classes): handler] *)
Definition try_except {A} (body : Result A) (caught : exn -> bool) (handler : Result A)
  : Result A :=
  match body with
  | Ok a => Ok a
  | Raise e => if caught e then handler else Raise e
  end.

(** [for x in l: acc = step(acc, x)] where the body may raise *)
Fixpoint for_each {A S} (l : list A) (step : S -> A -> Result S) (acc : S) : Result S :=
  match l with
  | [] => Ok acc
  | x :: t => acc' ← step acc x; for_each t step acc'
  end.

(** [FileNotFoundError] is a subclass of [OSError]. *)
Definition is_OSError (e : exn) : bool :=
  match e with
  | OSError | FileNotFoundError => true
  | _ => false
  end.

(** *** Insertion-ordered dictionaries *)

Module Dict.
Section dict.
Context {K V : Type} `{EqDecision K}.

(** [d.get(k)] / [k in d] *)
Fixpoint get (k : K) (d : list (K * V)) : option V :=
  match d with
  | [] => None
  | (k', v) :: d' => if decide (k = k') then Some v else get k d'
  end.

(** [d[k] = v]: an existing key keeps its position, a new key goes last *)
Fixpoint set (k : K) (v : V) (d : list (K * V)) : list (K * V) :=
  match d with
  | [] => [(k, v)]
  | (k', v') :: d' => if decide (k = k') then (k', v) :: d' else (k', v') :: set k v d'
  end.

Definition keys (d : list (K * V)) : list K := d.*1.

(** [a == b] on dictionaries: same size, and every item of [a] is found
    in [b] with an equal value; insertion order plays no part. *)
Definition eqb `{EqDecision V} (a b : list (K * V)) : bool :=
  bool_decide (length a = length b)
  && forallb (fun kv => bool_decide (get kv.1 b = Some kv.2)) a.

End dict.
End Dict.

(** ** The host: [os], [os.path], [datetime] and the environment *)

Record Host : Type := {
  normpath : string -> string;                 (* os.path.normpath *)
  path_join : string -> string -> string;      (* os.path.join *)
  path_exists : string -> bool;                (* os.path.exists *)
  walk : string -> list (string * list string * list string);  (* os.walk *)
  getmtime : string -> Result Z;               (* os.path.getmtime *)
  strftime_ymd : Z -> Result string;           (* datetime.fromtimestamp(t).strftime('%Y-%m-%d') *)
  getenv : string -> option string             (* os.getenv *)
}.

(** *** [posixpath]: the host's path functions on a POSIX server *)

Module Posix.

Definition sep : ascii := "/"%char.

(** posixpath.join(a, b) *)
Definition join (a b : string) : string :=
  if PyStr.startswith "/" b then b
  else if bool_decide (a = "") || PyStr.endswith_char sep a then a +:+ b
  else a +:+ "/" +:+ b.

(** the component loop of posixpath.normpath; [new_comps] is kept in
    reverse, so that its head is [new_comps[-1]] *)
Fixpoint norm_comps (initial_slashes : nat) (comps new_comps : list string) : list string :=
  match comps with
  | [] => new_comps
  | comp :: rest =>
      if bool_decide (comp = "") || bool_decide (comp = ".")
      then norm_comps initial_slashes rest new_comps
      else if negb (bool_decide (comp = ".."))
              || (bool_decide (initial_slashes = 0) && bool_decide (new_comps = []))
              || match new_comps with
                 | last :: _ => bool_decide (last = "..")
                 | [] => false
                 end
      then norm_comps initial_slashes rest (comp :: new_comps)
      else norm_comps initial_slashes rest (tail new_comps)
  end.

Fixpoint repeat_sep (n : nat) : string :=
  match n with
  | 0 => ""
  | S n' => String sep (repeat_sep n')
  end.

(** posixpath.normpath *)
Definition normpath (path : string) : string :=
  if bool_decide (path = "") then "."
  else
    let initial_slashes :=
      if PyStr.startswith "/" path
      then if PyStr.startswith "//" path && negb (PyStr.startswith "///" path)
           then 2 else 1
      else 0 in
    let comps := rev (norm_comps initial_slashes (PyStr.split sep path) []) in
    let path := repeat_sep initial_slashes +:+ PyStr.join "/" comps in
    if bool_decide (path = "") then "." else path.

End Posix.

(** ** [get_files]: enumeration of the files under a path *)

(** The tuple [(name, modified_time, full_path, relative_full_path)]. *)
Record FileItem : Type := {
  item_name : string;
  item_modified_time : string;
  item_full_path : string;
  item_relative_full_path : string
}.

#[global] Instance FileItem_eq_dec : EqDecision FileItem.
Proof. solve_decision. Defined.

Section enumeration.
Context (h : Host).

(** The [try] body:
    [datetime.fromtimestamp(os.path.getmtime(full_path)).strftime('%Y-%m-%d')] *)
Definition read_modified_time (full_path : string) : Result string :=
  t ← getmtime h full_path; strftime_ymd h t.

(** The body of the inner loop, for one [name] of one walk triple. *)
Definition get_files_item (path original_path root name : string) : Result FileItem :=
  let full_path := normpath h (path_join h root name) in
  let relative_full_path := PyStr.replace1 path original_path full_path in
  modified_time ←
    try_except (t ← getmtime h full_path; strftime_ymd h t)
               is_OSError
               (Ok "Unavailable");
  Ok {| item_name := name;
        item_modified_time := modified_time;
        item_full_path := full_path;
        item_relative_full_path := relative_full_path |}.

Definition get_files (path original_path : string) : Result (list FileItem) :=
  let items : list FileItem := [] in
  if negb (path_exists h path)
  then Raise (ValueError ("Base path does not exist: " +:+ path))
  else
    for_each (walk h path)
      (fun (items : list FileItem) '(root, dirs, files) =>
         for_each files
           (fun (items : list FileItem) (name : string) =>
              item ← get_files_item path original_path root name;
              Ok (items ++ [item]))
           items)
      items.

(** ** [resolve_path] *)

Definition drive_mappings : list (string * option string) :=
  [ ("Z:", getenv h "UNC_PATH");
    ("Y:", Some "\\Server\SharedDrive") ].

Definition resolve_path (path : string) : Result string :=
  let path := normpath h path in
  let drive_letter := PyStr.take 2 path in
  match Dict.get drive_letter drive_mappings with
  | Some target =>
      (* drive_mappings[drive_letter] + path[2:] : None + str is a TypeError *)
      match target with
      | None => Raise TypeError
      | Some prefix =>
          let unc_path := normpath h (prefix +:+ PyStr.drop 2 path) in
          if negb (path_exists h unc_path)
          then Raise (ValueError ("Invalid or inaccessible mapped drive path: " +:+ unc_path))
          else Ok unc_path
      end
  | None =>
      if PyStr.startswith "\\" path
      then
        if negb (path_exists h path)
        then Raise (ValueError ("Invalid or inaccessible UNC path: " +:+ path))
        else Ok path
      else
        if negb (path_exists h path)
        then Raise (ValueError ("Invalid or inaccessible local path: " +:+ path))
        else Ok path
  end.

End enumeration.

(** ** The export pipeline *)

(** The grouped mapping handed to the generators: an insertion-ordered
    dictionary from category to the list of [(name, modified_time)]. *)
Definition Grouped : Type := list (string * list (string * string)).

(** Truthiness of a list: [if items:] *)
Definition truthy {A} (l : list A) : bool :=
  match l with
  | [] => false
  | _ :: _ => true
  end.

(** *** [generate_word] *)

(** A table row of the Word document: the two cell texts, and whether the
    runs of the first / of both cells were set bold by the program. *)
Record WordRow : Type := {
  word_text0 : string;
  word_text1 : string;
  word_bold0 : bool;
  word_bold1 : bool
}.

#[global] Instance WordRow_eq_dec : EqDecision WordRow.
Proof. solve_decision. Defined.

Definition word_header : WordRow :=
  {| word_text0 := "Category / File Name"; word_text1 := "Last Modified";
     word_bold0 := true; word_bold1 := true |}.

Definition word_category_row (category : string) : WordRow :=
  {| word_text0 := category; word_text1 := ""; word_bold0 := true; word_bold1 := false |}.

Definition word_file_row (name modified_time : string) : WordRow :=
  {| word_text0 := name; word_text1 := modified_time;
     word_bold0 := false; word_bold1 := false |}.

(** The table of the document saved into the buffer: [table.add_row()]
    appends. *)
Definition generate_word (categories : Grouped) : list WordRow :=
  let table := [word_header] in
  fold_left
    (fun table '(category, items) =>
       if truthy items then
         let table := table ++ [word_category_row category] in
         fold_left
           (fun table '(name, modified_time) => table ++ [word_file_row name modified_time])
           items table
       else table)
    categories table.

(** *** [generate_pdf] *)

Inductive ParagraphStyle : Type := Heading4 | BodyText.

Inductive PdfCell : Type :=
| Paragraph (text : string) (style : ParagraphStyle)
| PlainText (text : string).

#[global] Instance ParagraphStyle_eq_dec : EqDecision ParagraphStyle.
Proof. solve_decision. Defined.
#[global] Instance PdfCell_eq_dec : EqDecision PdfCell.
Proof. solve_decision. Defined.

Definition pdf_header : PdfCell * PdfCell :=
  (Paragraph "Category / File Name" Heading4, Paragraph "Last Modified" Heading4).

(** The [data] given to [Table]: [data.append] appends. *)
Definition generate_pdf (categories : Grouped) : list (PdfCell * PdfCell) :=
  let data := [pdf_header] in
  fold_left
    (fun data '(category, items) =>
       if truthy items then
         let data := data ++ [(Paragraph category Heading4, PlainText "")] in
         fold_left
           (fun data '(name, modified_time) =>
              data ++ [(Paragraph name BodyText, PlainText modified_time)])
           items data
       else data)
    categories data.

(** *** [generate_excel] *)

(** One entry of [data]: the dictionary with the two column keys
    ['Category / File Name'] and ['Last Modified']. *)
Record ExcelRecord : Type := {
  col_category_file_name : string;
  col_last_modified : string
}.

#[global] Instance ExcelRecord_eq_dec : EqDecision ExcelRecord.
Proof. solve_decision. Defined.

Definition generate_excel_data (categories : Grouped) : list ExcelRecord :=
  let data := [] in
  fold_left
    (fun data '(category, items) =>
       if truthy items then
         let data :=
           data ++ [{| col_category_file_name := category; col_last_modified := "" |}] in
         fold_left
           (fun data '(name, modified_time) =>
              data ++ [{| col_category_file_name := "   " +:+ name;
                          col_last_modified := modified_time |}])
           items data
       else data)
    categories data.

(** [enumerate(l, start)] *)
Definition enumerate {A} (start : nat) (l : list A) : list (nat * A) :=
  zip (seq start (length l)) l.

(** An openpyxl worksheet, as far as cell values go: the cells written so
    far, addressed by 1-based [(row, column)], and the largest row that
    holds a cell.  Fonts, alignments and column widths do not change any
    cell value and are left out. *)
Record Worksheet : Type := {
  ws_cells : gmap (nat * nat) string;
  ws_max_row : nat
}.

Definition ws_empty : Worksheet := {| ws_cells := ∅; ws_max_row := 0 |}.

(** [worksheet.cell(row=r, column=c, value=v)] *)
Definition ws_cell (r c : nat) (v : string) (ws : Worksheet) : Worksheet :=
  {| ws_cells := <[(r, c) := v]> (ws_cells ws);
     ws_max_row := ws_max_row ws `max` r |}.

(** The values of row [r] in the two columns the program uses. *)
Definition ws_row (ws : Worksheet) (r : nat) : option string * option string :=
  (ws_cells ws !! (r, 1), ws_cells ws !! (r, 2)).

(** All rows of the sheet, from row 1 to the last row that holds a cell. *)
Definition ws_rows (ws : Worksheet) : list (option string * option string) :=
  ws_row ws <$> seq 1 (ws_max_row ws).

Definition excel_columns : list (string * (ExcelRecord -> string)) :=
  [ ("Category / File Name", col_category_file_name);
    ("Last Modified", col_last_modified) ].

(** [df.to_excel(writer, index=False, sheet_name=..., startrow=startrow)]
    (pandas with the openpyxl engine).  [startrow] is 0-based: the column
    labels go to sheet row [startrow + 1], and record [i] of the frame to
    sheet row [startrow + 2 + i]; cells are produced column by column.  A
    frame built from an empty list has no columns, so nothing is written. *)
Definition to_excel (df : list ExcelRecord) (startrow : nat) (ws : Worksheet) : Worksheet :=
  match df with
  | [] => ws
  | _ :: _ =>
      let ws :=
        fold_left (fun ws '(col, (label, _)) => ws_cell (startrow + 1) col label ws)
                  (enumerate 1 excel_columns) ws in
      fold_left
        (fun ws '(col, (_, field)) =>
           fold_left (fun ws '(i, record) => ws_cell (startrow + 2 + i) col (field record) ws)
                     (enumerate 0 df) ws)
        (enumerate 1 excel_columns) ws
  end.

(** The sheet ['Files'] of the workbook saved into the buffer. *)
Definition generate_excel (categories : Grouped) : Worksheet :=
  let df := generate_excel_data categories in
  let worksheet := to_excel df 1 ws_empty in
  let headers := ["Category / File Name"; "Last Modified"] in
  let worksheet :=
    fold_left (fun ws '(col_num, value) => ws_cell 1 col_num value ws)
              (enumerate 1 headers) worksheet in
  fold_left
    (fun ws '(index, row) =>
       let ws := ws_cell (index + 2) 1 (col_category_file_name row) ws in
       ws_cell (index + 2) 2 (col_last_modified row) ws)
    (enumerate 0 df) worksheet.

(** ** The page script: session state and category assignment *)

Inductive Buffer : Type :=
| ExcelBuffer (sheet : Worksheet)
| WordBuffer (table : list WordRow)
| PdfBuffer (data : list (PdfCell * PdfCell)).

(** [st.session_state] *)
Record SessionState : Type := {
  generate_excel_option : bool;
  generate_word_option : bool;
  generate_pdf_option : bool;
  generated_files : gmap string Buffer;
  category_selection : list (string * (string * string))
}.

Definition categories : list string :=
  ["CONTRACTUAL"; "ARCHITECTURAL"; "STRUCTURAL"; "SERVICES"; "SAFETY"; "OTHER"].

(** [st.selectbox(..., options=options, key=f"selectbox_{index}")]: the
    widget state [ui] holds, per selectbox, the position of the chosen
    option; the first option is the default. *)
Definition selectbox (ui : nat -> nat) (options : list string) (index : nat) : string :=
  default (default "" (head options)) (options !! ui index).

(** The loop under "Assign Categories". *)
Definition assign_categories (ui : nat -> nat) (items : list FileItem)
  : list (string * (string * string)) :=
  let category_selection := [] in
  fold_left
    (fun category_selection '(index, item) =>
       let category := selectbox ui categories index in
       Dict.set (item_name item) (item_modified_time item, category) category_selection)
    (enumerate 0 items) category_selection.

(** [if category_selection != st.session_state.category_selection: ...] *)
Definition detect_change (selection : list (string * (string * string)))
    (st : SessionState) : SessionState :=
  if negb (Dict.eqb selection (category_selection st))
  then {| generate_excel_option := generate_excel_option st;
          generate_word_option := generate_word_option st;
          generate_pdf_option := generate_pdf_option st;
          generated_files := ∅;
          category_selection := selection |}
  else st.

(** [categorized_data]: the grouping built when "Generate Selected Files"
    is pressed.  [categorized_data[category]] raises [KeyError] on a key
    that is not one of [categories]. *)
Definition categorized_data (selection : list (string * (string * string)))
  : Result Grouped :=
  let categorized_data : Grouped := (fun cat => (cat, [])) <$> categories in
  for_each selection
    (fun (categorized_data : Grouped) '(name, (modified_time, category)) =>
       match Dict.get category categorized_data with
       | None => Raise (KeyError category)
       | Some files =>
           Ok (Dict.set category (files ++ [(name, modified_time)]) categorized_data)
       end)
    categorized_data.

(** The body of [if st.button("Generate Selected Files"):], the calls
    into the document libraries taken to return; [press_generate] below
    lets them raise. *)
Definition generate_selected_files (st : SessionState) : Result SessionState :=
  grouped ← categorized_data (category_selection st);
  let files := generated_files st in
  let files :=
    if generate_excel_option st
    then <["excel" := ExcelBuffer (generate_excel grouped)]> files else files in
  let files :=
    if generate_word_option st
    then <["word" := WordBuffer (generate_word grouped)]> files else files in
  let files :=
    if generate_pdf_option st
    then <["pdf" := PdfBuffer (generate_pdf grouped)]> files else files in
  Ok {| generate_excel_option := generate_excel_option st;
        generate_word_option := generate_word_option st;
        generate_pdf_option := generate_pdf_option st;
        generated_files := files;
        category_selection := category_selection st |}.

(** ** Auxiliary definitions used in the statements *)

(** [[f(x) for x in l]] where [f] may raise: the first exception wins. *)
Fixpoint map_result {A B} (f : A -> Result B) (l : list A) : Result (list B) :=
  match l with
  | [] => Ok []
  | x :: t => y ← f x; ys ← map_result f t; Ok (y :: ys)
  end.

(** The [(root, name)] pairs in the order the two nested loops of
    [get_files] visit them. *)
Definition walked_files (h : Host) (path : string) : list (string * string) :=
  '(root, _, files) ← walk h path; (fun name => (root, name)) <$> files.

(** *** An example server

    A POSIX host whose share [/srv/x] holds [docs/a.txt],
    [docs/locked.txt] (its metadata cannot be read) and [srv/x/b.txt]. *)
Module ExampleHost.

Definition tree : list (string * list string * list string) :=
  [ ("/srv/x", ["docs"; "srv"], []);
    ("/srv/x/docs", [], ["a.txt"; "locked.txt"]);
    ("/srv/x/srv", ["x"], []);
    ("/srv/x/srv/x", [], ["b.txt"]) ].

Definition directories : list string := tree.*1.*1.

Definition files : list string :=
  ["/srv/x/docs/a.txt"; "/srv/x/docs/locked.txt"; "/srv/x/srv/x/b.txt"].

Definition h : Host :=
  {| normpath := Posix.normpath;
     path_join := Posix.join;
     path_exists := fun p =>
       bool_decide (p ∈ directories ++ files ++ ["/srv/x/"; "/srv/x/docs/"]);
     walk := fun top => if bool_decide (top = "/srv/x") then tree else [];
     getmtime := fun p =>
       if bool_decide (p = "/srv/x/docs/a.txt") then Ok 1704103200%Z
       else if bool_decide (p = "/srv/x/srv/x/b.txt") then Ok 1704189600%Z
       else if bool_decide (p = "/srv/x/docs/locked.txt") then Raise OSError
       else Raise FileNotFoundError;
     strftime_ymd := fun t =>
       if bool_decide (t = 1704103200%Z) then Ok "2024-01-01"
       else if bool_decide (t = 1704189600%Z) then Ok "2024-01-02"
       else Raise OverflowError;
     getenv := fun _ => None |}.

End ExampleHost.

(** The records [get_files] returns on the example server for the share
    shown to the client as [C:\shared]. *)
Module ExampleItems.

Definition a_txt : FileItem :=
  {| item_name := "a.txt"; item_modified_time := "2024-01-01";
     item_full_path := "/srv/x/docs/a.txt";
     item_relative_full_path := "C:\shared/docs/a.txt" |}.

Definition locked_txt : FileItem :=
  {| item_name := "locked.txt"; item_modified_time := "Unavailable";
     item_full_path := "/srv/x/docs/locked.txt";
     item_relative_full_path := "C:\shared/docs/locked.txt" |}.

Definition b_txt : FileItem :=
  {| item_name := "b.txt"; item_modified_time := "2024-01-02";
     item_full_path := "/srv/x/srv/x/b.txt";
     item_relative_full_path := "C:\shared/srv/x/b.txt" |}.

Definition items : list FileItem := [a_txt; locked_txt; b_txt].

End ExampleItems.

(** The files the selection gives to [category], in the order of the
    selection. *)
Definition assigned_to (category : string) (selection : list (string * (string * string)))
  : list (string * string) :=
  '(name, (modified_time, c)) ← selection;
  if decide (c = category) then [(name, modified_time)] else [].

(** The rows one entry of the grouped mapping stands for in a document:
    nothing when it has no files, else its heading and one row per file. *)
Definition category_block {R} (heading : string -> R) (file : string -> string -> R)
    (entry : string * list (string * string)) : list R :=
  if truthy entry.2
  then heading entry.1 :: ((fun nm => file nm.1 nm.2) <$> entry.2)
  else [].

Definition blocks {R} (heading : string -> R) (file : string -> string -> R)
    (grouped : Grouped) : list R :=
  grouped ≫= category_block heading file.

Definition excel_category_record (category : string) : ExcelRecord :=
  {| col_category_file_name := category; col_last_modified := "" |}.

Definition excel_file_record (name modified_time : string) : ExcelRecord :=
  {| col_category_file_name := "   " +:+ name; col_last_modified := modified_time |}.

(** A sheet row holding the two values of a record. *)
Definition record_cells (r : ExcelRecord) : option string * option string :=
  (Some (col_category_file_name r), Some (col_last_modified r)).

Definition excel_header_cells : option string * option string :=
  (Some "Category / File Name", Some "Last Modified").

(** The rows of a category that has files: its heading, then its files. *)
Definition category_rows {R} (heading : string -> R) (file : string -> string -> R)
    (entry : string * list (string * string)) : list R :=
  heading entry.1 :: ((fun nm => file nm.1 nm.2) <$> entry.2).

(** The entries of the grouped mapping that have at least one file. *)
Definition with_files (grouped : Grouped) : Grouped :=
  filter (B := list (string * list (string * string)))
         (fun entry => truthy entry.2) grouped.

Definition pdf_category_row (category : string) : PdfCell * PdfCell :=
  (Paragraph category Heading4, PlainText "").

Definition pdf_file_row (name modified_time : string) : PdfCell * PdfCell :=
  (Paragraph name BodyText, PlainText modified_time).

(** The value a record holds for sheet column [c]. *)
Definition record_value (c : nat) (r : ExcelRecord) : string :=
  if decide (c = 1) then col_category_file_name r else col_last_modified r.

(** The page state of the end-to-end scenario: [a.txt] is assigned
    SAFETY and [b.txt] OTHER. *)
Module Scenario.

Definition selection : list (string * (string * string)) :=
  [ ("a.txt", ("2024-01-01", "SAFETY")); ("b.txt", ("2024-01-02", "OTHER")) ].

(** The same assignments made in the other order. *)
Definition selection_swapped : list (string * (string * string)) :=
  [ ("b.txt", ("2024-01-02", "OTHER")); ("a.txt", ("2024-01-01", "SAFETY")) ].

(** The rows the scenario is said to produce, the second cell of a
    category row left empty. *)
Definition stated_rows : list (option string * option string) :=
  [ (Some "Category / File Name", Some "Last Modified");
    (Some "SAFETY", Some "");
    (Some "a.txt", Some "2024-01-01");
    (Some "OTHER", Some "");
    (Some "b.txt", Some "2024-01-02") ].

(** The first five rows of the sheet. *)
Definition first_rows : list (option string * option string) :=
  [ (Some "Category / File Name", Some "Last Modified");
    (Some "SAFETY", Some "");
    (Some "   a.txt", Some "2024-01-01");
    (Some "OTHER", Some "");
    (Some "   b.txt", Some "2024-01-02") ].

End Scenario.

(** The body of the assignment loop for one enumerated entry. *)
Definition assign_step (ui : nat -> nat)
    (selection : list (string * (string * string)))
    (entry : nat * FileItem) : list (string * (string * string)) :=
  let '(index, item) := entry in
  Dict.set (item_name item) (item_modified_time item, selectbox ui categories index)
           selection.

(** What the assignment loop stores under [name], entry by entry: the
    date and the chosen category of every listed file of that name. *)
Definition entries_named (ui : nat -> nat) (name : string) (items : list (nat * FileItem))
  : list (string * string) :=
  '(index, item) ← items;
  if decide (item_name item = name)
  then [(item_modified_time item, selectbox ui categories index)]
  else [].

(** A session that holds generated documents for the scenario. *)
Module ExampleSession.

Definition grouped : Grouped :=
  (fun cat => (cat, assigned_to cat Scenario.selection)) <$> categories.

Definition st : SessionState :=
  {| generate_excel_option := true;
     generate_word_option := true;
     generate_pdf_option := false;
     generated_files :=
       <["word" := WordBuffer (generate_word grouped)]>
         (<["excel" := ExcelBuffer (generate_excel grouped)]> ∅);
     category_selection := Scenario.selection |}.

(** [a.txt] moved to OTHER. *)
Definition changed_selection : list (string * (string * string)) :=
  [ ("a.txt", ("2024-01-01", "OTHER")); ("b.txt", ("2024-01-02", "OTHER")) ].

End ExampleSession.

(** Two listed files of the same name in different folders; the first
    selectbox is set to SAFETY, the second to OTHER. *)
Module SameName.

Definition items : list FileItem :=
  [ {| item_name := "a.txt"; item_modified_time := "2024-01-01";
       item_full_path := "/srv/x/docs/a.txt";
       item_relative_full_path := "C:\shared/docs/a.txt" |};
    {| item_name := "a.txt"; item_modified_time := "2024-01-02";
       item_full_path := "/srv/x/archive/a.txt";
       item_relative_full_path := "C:\shared/archive/a.txt" |} ].

Definition ui (index : nat) : nat :=
  match index with
  | 0 => 4
  | _ => 5
  end.

End SameName.

(** ** The rest of the page script *)

(** Truthiness of a string: [if directory_path:] *)
Definition truthy_str (s : string) : bool :=
  match s with
  | EmptyString => false
  | String _ _ => true
  end.

(** What the page shows below the path input. *)
Inductive PageView : Type :=
| Blank
| ErrorMessage (msg : string)
| AssignCategories (items : list FileItem).

(** The listing step of the script: [if directory_path:] and the part of
    the [try] body up to [get_files] (lines 245-253), with [except
    ValueError as e: st.error(str(e))] applied to it.
    [Path(resolved_path).exists()] is the host's existence test.
    Exceptions of other classes leave the script.  The [try] body goes on
    to line 374; what is raised there reaches the same [except] clause and
    is no part of this slice. *)
Definition list_directory (h : Host) (directory_path : string) : Result PageView :=
  if truthy_str directory_path then
    match
      (resolved_path ← resolve_path h directory_path;
       if truthy_str resolved_path && path_exists h resolved_path then
         items ← get_files h resolved_path directory_path;
         if truthy items then Ok (AssignCategories items) else Ok Blank
       else Ok Blank)
    with
    | Raise (ValueError msg) => Ok (ErrorMessage msg)
    | outcome => outcome
    end
  else Ok Blank.

(** [st.session_state] after the [if ... not in st.session_state] block of
    a fresh session. *)
Definition initial_session : SessionState :=
  {| generate_excel_option := false;
     generate_word_option := false;
     generate_pdf_option := false;
     generated_files := ∅;
     category_selection := [] |}.



(** The document stored under a key of [generated_files] for a grouping. *)
Definition buffer_of (grouped : Grouped) (key : string) : option Buffer :=
  if decide (key = "excel") then Some (ExcelBuffer (generate_excel grouped))
  else if decide (key = "word") then Some (WordBuffer (generate_word grouped))
  else if decide (key = "pdf") then Some (PdfBuffer (generate_pdf grouped))
  else None.

(** Every stored document is the one generated from the stored assignment
    map, whose keys are distinct and whose categories are known. *)
Definition session_consistent (st : SessionState) : Prop :=
  NoDup (Dict.keys (category_selection st))
  ∧ Forall (fun entry => entry.2.2 ∈ categories) (category_selection st)
  ∧ ∀ grouped key buffer,
      categorized_data (category_selection st) = Ok grouped →
      generated_files st !! key = Some buffer →
      buffer_of grouped key = Some buffer.





(** The store entry the assignment loop writes for the file listed at
    position [index]. *)
Definition store_entry (ui : nat -> nat) (entry : nat * FileItem)
  : string * (string * string) :=
  (item_name entry.2, (item_modified_time entry.2, selectbox ui categories entry.1)).


(** ** The document libraries

    The generators above give the tables the program hands to python-docx,
    reportlab and pandas/openpyxl.  The calls into these libraries that
    take a text or a table of the program can raise; they are the
    parameters of what follows, with an exception type [E] of their own.
    Calls that take no data of the program ([Document()], [add_row()],
    column widths, styles) are taken to return. *)

Inductive Lib (E A : Type) : Type :=
| LibOk (a : A)
| LibRaise (e : E).
Arguments LibOk {E A} a.
Arguments LibRaise {E A} e.

#[global] Instance lib_ret {E} : MRet (Lib E) := fun _ a => LibOk a.

#[global] Instance lib_bind {E} : MBind (Lib E) := fun _ _ k r =>
  match r with
  | LibOk a => k a
  | LibRaise e => LibRaise e
  end.

#[global] Instance lib_fmap {E} : FMap (Lib E) := fun _ _ f r =>
  match r with
  | LibOk a => LibOk (f a)
  | LibRaise e => LibRaise e
  end.

(** [for x in l: ...] where the body calls a library *)
Fixpoint lib_for_each {E A S} (l : list A) (step : S -> A -> Lib E S) (acc : S)
  : Lib E S :=
  match l with
  | [] => LibOk acc
  | x :: t => acc' ← step acc x; lib_for_each t step acc'
  end.

Record Encoders (E : Type) : Type := {
  docx_text : string -> Lib E unit;                 (* cell.text = s *)
  docx_save : list WordRow -> Lib E unit;           (* doc.save(buffer) *)
  pdf_paragraph : string -> ParagraphStyle -> Lib E unit;   (* Paragraph(text, style) *)
  pdf_build : list (PdfCell * PdfCell) -> Lib E unit;  (* Table(data, ...), pdf.build([table]) *)
  xlsx_value : string -> Lib E unit;                (* a cell value given to openpyxl *)
  xlsx_save : Worksheet -> Lib E unit               (* leaving the ExcelWriter block *)
}.
Arguments docx_text {E} _ _.
Arguments docx_save {E} _ _.
Arguments pdf_paragraph {E} _ _ _.
Arguments pdf_build {E} _ _.
Arguments xlsx_value {E} _ _.
Arguments xlsx_save {E} _ _.

(** [generate_word], with the library calls in the order of lines 112-145. *)
Definition generate_word_lib {E} (enc : Encoders E) (categories : Grouped)
  : Lib E (list WordRow) :=
  docx_text enc "Category / File Name";;
  docx_text enc "Last Modified";;
  table ← lib_for_each categories
    (fun (table : list WordRow) '(category, items) =>
       if truthy items then
         docx_text enc category;;
         docx_text enc "";;
         lib_for_each items
           (fun (table : list WordRow) '(name, modified_time) =>
              docx_text enc name;;
              docx_text enc modified_time;;
              LibOk (table ++ [word_file_row name modified_time]))
           (table ++ [word_category_row category])
       else LibOk table)
    [word_header];
  docx_save enc table;;
  LibOk table.

(** [generate_pdf], with the library calls in the order of lines 159-181. *)
Definition generate_pdf_lib {E} (enc : Encoders E) (categories : Grouped)
  : Lib E (list (PdfCell * PdfCell)) :=
  pdf_paragraph enc "Category / File Name" Heading4;;
  pdf_paragraph enc "Last Modified" Heading4;;
  data ← lib_for_each categories
    (fun (data : list (PdfCell * PdfCell)) '(category, items) =>
       if truthy items then
         pdf_paragraph enc category Heading4;;
         lib_for_each items
           (fun (data : list (PdfCell * PdfCell)) '(name, modified_time) =>
              pdf_paragraph enc name BodyText;;
              LibOk (data ++ [(Paragraph name BodyText, PlainText modified_time)]))
           (data ++ [(Paragraph category Heading4, PlainText "")])
       else LibOk data)
    [pdf_header];
  pdf_build enc data;;
  LibOk data.

(** [worksheet.cell(row=r, column=c, value=v)], the value checked by
    openpyxl. *)
Definition ws_cell_lib {E} (enc : Encoders E) (r c : nat) (v : string) (ws : Worksheet)
  : Lib E Worksheet :=
  xlsx_value enc v;;
  LibOk (ws_cell r c v ws).

(** [to_excel], every cell written through openpyxl. *)
Definition to_excel_lib {E} (enc : Encoders E) (df : list ExcelRecord) (startrow : nat)
    (ws : Worksheet) : Lib E Worksheet :=
  match df with
  | [] => LibOk ws
  | _ :: _ =>
      ws ← lib_for_each (enumerate 1 excel_columns)
             (fun ws '(col, (label, _)) => ws_cell_lib enc (startrow + 1) col label ws) ws;
      lib_for_each (enumerate 1 excel_columns)
        (fun ws '(col, (_, field)) =>
           lib_for_each (enumerate 0 df)
             (fun ws '(i, record) =>
                ws_cell_lib enc (startrow + 2 + i) col (field record) ws)
             ws)
        ws
  end.

(** [generate_excel], with the library calls in the order of lines 195-210. *)
Definition generate_excel_lib {E} (enc : Encoders E) (categories : Grouped)
  : Lib E Worksheet :=
  let df := generate_excel_data categories in
  worksheet ← to_excel_lib enc df 1 ws_empty;
  let headers := ["Category / File Name"; "Last Modified"] in
  worksheet ← lib_for_each (enumerate 1 headers)
                (fun ws '(col_num, value) => ws_cell_lib enc 1 col_num value ws)
                worksheet;
  worksheet ← lib_for_each (enumerate 0 df)
                (fun ws '(index, row) =>
                   ws ← ws_cell_lib enc (index + 2) 1 (col_category_file_name row) ws;
                   ws_cell_lib enc (index + 2) 2 (col_last_modified row) ws)
                worksheet;
  xlsx_save enc worksheet;;
  LibOk worksheet.

(** What leaves the button body: an exception of the program's own code
    or one raised in a library. *)
Inductive Raised (E : Type) : Type :=
| PythonError (e : exn)
| LibraryError (e : E).
Arguments PythonError {E} e.
Arguments LibraryError {E} e.

(** [st.session_state.generated_files[key] = buffer] *)
Definition store_document (key : string) (buffer : Buffer) (st : SessionState)
  : SessionState :=
  {| generate_excel_option := generate_excel_option st;
     generate_word_option := generate_word_option st;
     generate_pdf_option := generate_pdf_option st;
     generated_files := <[key := buffer]> (generated_files st);
     category_selection := category_selection st |}.

(** [if option: buffer = generate(...); generated_files[key] = buffer]:
    the state afterwards, and the exception if the generator raised. *)
Definition generate_if {E} (selected : bool) (key : string) (document : Lib E Buffer)
    (st : SessionState) : SessionState * option E :=
  if selected then
    match document with
    | LibOk buffer => (store_document key buffer st, None)
    | LibRaise e => (st, Some e)
    end
  else (st, None).

(** The body of [if st.button("Generate Selected Files"):] (lines 259-274)
    with library calls that can raise: the session state it leaves behind,
    and the exception that ended it, if any. *)
Definition press_generate {E} (enc : Encoders E) (st : SessionState)
  : SessionState * option (Raised E) :=
  match categorized_data (category_selection st) with
  | Raise e => (st, Some (PythonError e))
  | Ok grouped =>
      let '(st, raised) :=
        generate_if (generate_excel_option st) "excel"
                    (ExcelBuffer <$> generate_excel_lib enc grouped) st in
      match raised with
      | Some e => (st, Some (LibraryError e))
      | None =>
          let '(st, raised) :=
            generate_if (generate_word_option st) "word"
                        (WordBuffer <$> generate_word_lib enc grouped) st in
          match raised with
          | Some e => (st, Some (LibraryError e))
          | None =>
              let '(st, raised) :=
                generate_if (generate_pdf_option st) "pdf"
                            (PdfBuffer <$> generate_pdf_lib enc grouped) st in
              (st, LibraryError <$> raised)
          end
      end
  end.


(** Libraries that take every text and table, except that a paragraph
    with a [<] in it is refused. *)
Module ExampleEncoders.

Fixpoint has_char (c : ascii) (s : string) : bool :=
  match s with
  | EmptyString => false
  | String a s' => bool_decide (a = c) || has_char c s'
  end.

Definition enc : Encoders string :=
  {| docx_text := fun _ => LibOk ();
     docx_save := fun _ => LibOk ();
     pdf_paragraph := fun text _ =>
       if has_char "<"%char text then LibRaise ("paraparser: " +:+ text) else LibOk ();
     pdf_build := fun _ => LibOk ();
     xlsx_value := fun _ => LibOk ();
     xlsx_save := fun _ => LibOk () |}.

(** A listing with a file name that holds a [<]; every selectbox is left
    at its first option. *)
Definition items : list FileItem :=
  [ {| item_name := "a<b.txt"; item_modified_time := "2024-01-01";
       item_full_path := "/srv/x/docs/a<b.txt";
       item_relative_full_path := "C:\shared/docs/a<b.txt" |} ].

Definition st : SessionState :=
  {| generate_excel_option := true;
     generate_word_option := false;
     generate_pdf_option := true;
     generated_files := ∅;
     category_selection := assign_categories (fun _ => 0) items |}.

End ExampleEncoders.


(** * Properties *)

(** ** Strings *)

Module PyStrFacts.
Import PyStr.

Lemma startswith_app (p s : string) : startswith p (p +:+ s) = true.
Proof. induction p as [|a p IH]; simpl; [done|]. by rewrite decide_True. Qed.

Lemma drop_length_app (p s : string) : drop (String.length p) (p +:+ s) = s.
Proof. induction p as [|a p IH]; simpl; [by destruct s|done]. Qed.

Lemma drop_0 (s : string) : drop 0 s = s.
Proof. by destruct s. Qed.

(** Where [old] starts at position 0, the replacement happens there. *)
Lemma replace1_at_start (old new suf : string) :
  replace1 old new (old +:+ suf) = new +:+ suf.
Proof.
  destruct old as [|a old].
  - by destruct suf.
  - simpl. rewrite decide_True by done. rewrite startswith_app.
    by rewrite drop_length_app.
Qed.

(** The leftmost occurrence is the one replaced, wherever it is: if
    [old] occurs after [pre] and at no earlier position, the result is
    [pre], then [new], then the untouched rest. *)
Lemma replace1_leftmost (old new pre suf : string) :
  (∀ k, k < String.length pre → startswith old (drop k (pre +:+ old +:+ suf)) = false) →
  replace1 old new (pre +:+ old +:+ suf) = pre +:+ new +:+ suf.
Proof.
  induction pre as [|c pre IH]; intros Hno.
  - change ("" +:+ old +:+ suf) with (old +:+ suf).
    change ("" +:+ new +:+ suf) with (new +:+ suf).
    apply replace1_at_start.
  - assert (H0 := Hno 0 ltac:(simpl; lia)).
    rewrite drop_0 in H0.
    change ((String c pre) +:+ old +:+ suf) with (String c (pre +:+ old +:+ suf)) in *.
    change ((String c pre) +:+ new +:+ suf) with (String c (pre +:+ new +:+ suf)).
    destruct old as [|a old].
    + simpl in H0. done.
    + cbn [replace1]. rewrite H0. f_equal. apply IH.
      intros k Hk. apply (Hno (S k)). simpl. lia.
Qed.

(** Without any occurrence the string is returned as it is. *)
Lemma replace1_absent (old new s : string) :
  (∀ k, startswith old (drop k s) = false) →
  replace1 old new s = s.
Proof.
  induction s as [|c s IH]; intros Hno.
  - assert (H0 := Hno 0). simpl in H0.
    destruct old; simpl in *; [done|done].
  - assert (H0 := Hno 0). rewrite drop_0 in H0.
    destruct old as [|a old]; [done|].
    cbn [replace1]. rewrite H0. f_equal. apply IH.
    intros k. apply (Hno (S k)).
Qed.

End PyStrFacts.

(** ** Loops in the result monad *)

Lemma for_each_append {A B} (f : A -> Result B) (l : list A) (acc : list B) :
  for_each l (fun acc x => y ← f x; Ok (acc ++ [y])) acc
  = ys ← map_result f l; Ok (acc ++ ys).
Proof.
  revert acc. induction l as [|x t IH]; intros acc; simpl.
  - by rewrite app_nil_r.
  - destruct (f x) as [y|e]; simpl; [|done].
    rewrite IH. destruct (map_result f t) as [ys|e]; simpl; [|done].
    by rewrite <- app_assoc.
Qed.

Lemma map_result_app {A B} (f : A -> Result B) (l1 l2 : list A) :
  map_result f (l1 ++ l2)
  = ys1 ← map_result f l1; ys2 ← map_result f l2; Ok (ys1 ++ ys2).
Proof.
  induction l1 as [|x t IH]; simpl.
  - by destruct (map_result f l2).
  - destruct (f x) as [y|e]; simpl; [|done].
    rewrite IH. destruct (map_result f t) as [ys|e]; simpl; [|done].
    by destruct (map_result f l2).
Qed.

Lemma map_result_Ok {A B} (f : A -> Result B) (l : list A) (ys : list B) :
  map_result f l = Ok ys ↔ Forall2 (fun x y => f x = Ok y) l ys.
Proof.
  revert ys. induction l as [|x t IH]; intros ys; simpl.
  - split; [intros [= <-]; constructor | by inversion 1].
  - split.
    + destruct (f x) as [y|e] eqn:Hx; simpl; [|done].
      destruct (map_result f t) as [ys'|e] eqn:Ht; simpl; [|done].
      intros [= <-]. constructor; [done|]. by apply IH.
    + inversion 1 as [|? y ? ys' Hx Hrest]; subst.
      rewrite Hx. simpl. apply IH in Hrest. by rewrite Hrest.
Qed.

Lemma map_result_total {A B} (f : A -> Result B) (l : list A) :
  (∀ x, x ∈ l → ∃ y, f x = Ok y) → ∃ ys, map_result f l = Ok ys.
Proof.
  induction l as [|x t IH]; intros Hall; simpl; [by eexists|].
  destruct (Hall x) as [y Hy]; [left|]. rewrite Hy. simpl.
  destruct IH as [ys Hys]; [intros z Hz; apply Hall; by right|].
  rewrite Hys. simpl. by eexists.
Qed.

(** ** [get_files] *)

Section enumeration_facts.
Context (h : Host).

Lemma get_files_walk (path original_path : string) :
  path_exists h path = true →
  get_files h path original_path
  = map_result (fun '(root, name) => get_files_item h path original_path root name)
               (walked_files h path).
Proof.
  intros Hex. unfold get_files, walked_files. rewrite Hex. simpl.
  set (g := fun '(root, name) => get_files_item h path original_path root name).
  enough (∀ (w : list (string * list string * list string)) (acc : list FileItem),
    for_each w
      (fun (items : list FileItem) '(root, dirs, files) =>
         for_each files
           (fun (items : list FileItem) (name : string) =>
              item ← get_files_item h path original_path root name; Ok (items ++ [item]))
           items) acc
    = ys ← map_result g ('(root, _, files) ← w; (fun name => (root, name)) <$> files);
      Ok (acc ++ ys)) as Hgen.
  { rewrite Hgen. by destruct (map_result g _). }
  induction w as [|[[root dirs] files] w IH]; intros acc.
  - simpl. by rewrite app_nil_r.
  - cbn [for_each]. rewrite bind_cons. rewrite map_result_app.
    rewrite (for_each_append (get_files_item h path original_path root)).
    assert (map_result g ((fun name => (root, name)) <$> files)
            = map_result (get_files_item h path original_path root) files) as ->.
    { clear. induction files as [|n t IHt]; [done|].
      rewrite fmap_cons. cbn [map_result]. by rewrite IHt. }
    destruct (map_result (get_files_item h path original_path root) files) as [ys|e];
      simpl; [|done].
    rewrite IH. destruct (map_result g _) as [zs|e]; simpl; [|done].
    by rewrite app_assoc.
Qed.

Lemma get_files_missing_base (path original_path : string) :
  path_exists h path = false →
  get_files h path original_path
  = Raise (ValueError ("Base path does not exist: " +:+ path)).
Proof. intros Hex. unfold get_files. by rewrite Hex. Qed.

Lemma get_files_Ok (path original_path : string) (items : list FileItem) :
  get_files h path original_path = Ok items →
  Forall2 (fun '(root, name) item => get_files_item h path original_path root name = Ok item)
          (walked_files h path) items.
Proof.
  intros Hget. destruct (path_exists h path) eqn:Hex.
  - rewrite get_files_walk in Hget by done. apply map_result_Ok in Hget.
    eapply Forall2_impl; [exact Hget|]. by intros [root name] item.
  - by rewrite get_files_missing_base in Hget.
Qed.

(** What the loop body records for one file. *)
Lemma get_files_item_Ok (path original_path root name : string) (item : FileItem) :
  get_files_item h path original_path root name = Ok item →
  let full_path := normpath h (path_join h root name) in
  item_name item = name
  ∧ item_full_path item = full_path
  ∧ item_relative_full_path item = PyStr.replace1 path original_path full_path
  ∧ item_modified_time item
    = match read_modified_time h full_path with
      | Ok date => date
      | Raise _ => "Unavailable"
      end.
Proof.
  intros Hitem. cbv zeta. unfold get_files_item, read_modified_time in *.
  cbv zeta in Hitem.
  destruct (getmtime h _ ≫= _) as [date|e]; simpl in Hitem.
  - by injection Hitem as <-.
  - destruct (is_OSError e); simpl in Hitem; [|done].
    by injection Hitem as <-.
Qed.

(** The loop body only raises what the [except] clause lets through. *)
Lemma get_files_item_total (path original_path root name : string) :
  (∀ e, read_modified_time h (normpath h (path_join h root name)) = Raise e →
        is_OSError e = true) →
  ∃ item, get_files_item h path original_path root name = Ok item.
Proof.
  unfold get_files_item, read_modified_time. intros Hos.
  destruct (getmtime h _ ≫= _) as [date|e] eqn:Hbody; simpl.
  - by eexists.
  - rewrite (Hos e eq_refl). simpl. by eexists.
Qed.

End enumeration_facts.

(** C1. Every record returned by [get_files] has, as its relative path,
    its absolute path with the leftmost occurrence of the base path
    replaced by the display base, as [str.replace(path, original_path, 1)]
    does: literally, once, and wherever that leftmost occurrence sits (the
    text before it and the text after it are kept as they are). *)
Theorem C1_relative_path_replaces_first_occurrence
    (h : Host) (path original_path : string) (items : list FileItem) (item : FileItem) :
  get_files h path original_path = Ok items →
  item ∈ items →
  item_relative_full_path item
  = PyStr.replace1 path original_path (item_full_path item)
  ∧ ∀ pre suf : string,
      item_full_path item = pre +:+ path +:+ suf →
      (∀ k, k < String.length pre →
            PyStr.startswith path (PyStr.drop k (item_full_path item)) = false) →
      item_relative_full_path item = pre +:+ original_path +:+ suf.
Proof.
  intros Hget Hin.
  apply get_files_Ok in Hget.
  assert (item_relative_full_path item
          = PyStr.replace1 path original_path (item_full_path item)) as Hrel.
  { apply list_elem_of_lookup in Hin as [i Hi].
    destruct (Forall2_lookup_r _ _ _ _ _ Hget Hi) as ([root name] & _ & Hitem).
    apply get_files_item_Ok in Hitem. cbv zeta in Hitem.
    destruct Hitem as (_ & -> & -> & _). done. }
  split; [done|].
  intros pre suf Hfull Hleft. rewrite Hrel. rewrite Hfull in Hleft |- *.
  by apply PyStrFacts.replace1_leftmost.
Qed.

(** On the example server, with base [/srv/x] shown as [C:\shared], the
    file [/srv/x/docs/a.txt] is listed as [C:\shared/docs/a.txt]. *)
Lemma C1_relative_path_witness :
  get_files ExampleHost.h "/srv/x" "C:\shared" = Ok ExampleItems.items
  ∧ ExampleItems.a_txt ∈ ExampleItems.items
  ∧ item_full_path ExampleItems.a_txt = "/srv/x/docs/a.txt"
  ∧ item_relative_full_path ExampleItems.a_txt = "C:\shared/docs/a.txt"
  ∧ item_relative_full_path ExampleItems.a_txt
    = PyStr.replace1 "/srv/x" "C:\shared" (item_full_path ExampleItems.a_txt).
Proof.
  assert (get_files ExampleHost.h "/srv/x" "C:\shared" = Ok ExampleItems.items) as Hget
    by (vm_compute; reflexivity).
  assert (ExampleItems.a_txt ∈ ExampleItems.items) as Hin by (left).
  split; [exact Hget|]. split; [exact Hin|].
  split; [reflexivity|]. split; [reflexivity|].
  exact (proj1 (C1_relative_path_replaces_first_occurrence
                  ExampleHost.h "/srv/x" "C:\shared"
                  ExampleItems.items ExampleItems.a_txt Hget Hin)).
Defined.

(** Only the first occurrence is replaced: below [/srv/x/srv/x] the second
    [/srv/x] stays, where a global replacement would rewrite it too. *)
Example get_files_replaces_once :
  get_files ExampleHost.h "/srv/x" "C:\shared" = Ok ExampleItems.items
  ∧ item_relative_full_path ExampleItems.b_txt = "C:\shared/srv/x/b.txt"
  ∧ PyStr.replace_all "/srv/x" "C:\shared" (item_full_path ExampleItems.b_txt)
    = "C:\sharedC:\shared/b.txt".
Proof. by vm_compute. Qed.

(** The substitution is not tied to the start of the string: with a base
    path that is not in normal form, the leftmost occurrence can sit
    inside the absolute path. *)
Example replace1_inside :
  PyStr.replace1 "./d" "D:" "d/e./d/f" = "d/eD:/f".
Proof. reflexivity. Qed.

(** C7. When the base path exists and reading a file's modification date
    fails only with OS-level errors, [get_files] returns normally with one
    record per walked file, in walk order; each record carries the file's
    name, absolute path and relative path, and its date is "Unavailable"
    exactly where the date could not be read: in particular wherever
    [os.path.getmtime] raised. *)
Theorem C7_unreadable_mtime_is_unavailable
    (h : Host) (path original_path : string) :
  path_exists h path = true →
  (∀ root name e,
     (root, name) ∈ walked_files h path →
     read_modified_time h (normpath h (path_join h root name)) = Raise e →
     is_OSError e = true) →
  ∃ items,
    get_files h path original_path = Ok items
    ∧ Forall2
        (fun '(root, name) item =>
           let full_path := normpath h (path_join h root name) in
           item_name item = name
           ∧ item_full_path item = full_path
           ∧ item_relative_full_path item = PyStr.replace1 path original_path full_path
           ∧ item_modified_time item
             = match read_modified_time h full_path with
               | Ok date => date
               | Raise _ => "Unavailable"
               end
           ∧ (∀ e, getmtime h full_path = Raise e →
                   item_modified_time item = "Unavailable"))
        (walked_files h path) items.
Proof.
  intros Hex Hos.
  destruct (map_result_total
              (fun '(root, name) => get_files_item h path original_path root name)
              (walked_files h path)) as [items Hitems].
  { intros [root name] Hin. apply get_files_item_total.
    intros e. by apply Hos. }
  exists items. split; [by rewrite get_files_walk|].
  apply map_result_Ok in Hitems.
  eapply Forall2_impl; [exact Hitems|].
  intros [root name] item Hitem. apply get_files_item_Ok in Hitem.
  cbv zeta in *. destruct Hitem as (Hn & Hf & Hr & Hm).
  repeat split; try done.
  intros e He. rewrite Hm. unfold read_modified_time. by rewrite He.
Qed.

(** On the example server the date of [docs/locked.txt] cannot be read;
    the walk still returns all three records. *)
Lemma C7_unreadable_mtime_witness :
  getmtime ExampleHost.h "/srv/x/docs/locked.txt" = Raise OSError
  ∧ ∃ items,
      get_files ExampleHost.h "/srv/x" "C:\shared" = Ok items
      ∧ length items = 3
      ∧ items !! 1 = Some ExampleItems.locked_txt.
Proof.
  split; [reflexivity|].
  destruct (C7_unreadable_mtime_is_unavailable ExampleHost.h "/srv/x" "C:\shared")
    as (items & Hget & _).
  - reflexivity.
  - intros root name e Hin Hread. vm_compute in Hin.
    repeat (apply elem_of_cons in Hin as [[= -> ->]|Hin]);
      [vm_compute in Hread; try discriminate; by injection Hread as <- ..|].
    by apply elem_of_nil in Hin.
  - exists items. split; [exact Hget|].
    assert (Ok items = Ok ExampleItems.items) as [= ->]
      by (rewrite <- Hget; vm_compute; reflexivity).
    split; reflexivity.
Defined.

(** ** [resolve_path] *)

Section resolve_facts.
Context (h : Host).

Lemma drive_mappings_unmapped (drive_letter : string) :
  drive_letter ≠ "Z:" → drive_letter ≠ "Y:" →
  Dict.get drive_letter (drive_mappings h) = None.
Proof.
  intros HZ HY. unfold drive_mappings. simpl.
  rewrite decide_False by done. by rewrite decide_False by done.
Qed.

Lemma drive_mappings_Z : Dict.get "Z:" (drive_mappings h) = Some (getenv h "UNC_PATH").
Proof. reflexivity. Qed.

Lemma drive_mappings_Y : Dict.get "Y:" (drive_mappings h) = Some (Some "\\Server\SharedDrive").
Proof. reflexivity. Qed.

(** Without a mapped drive prefix the two remaining branches differ only
    in the text of the error. *)
Lemma resolve_path_unmapped (path : string) :
  PyStr.take 2 (normpath h path) ≠ "Z:" →
  PyStr.take 2 (normpath h path) ≠ "Y:" →
  resolve_path h path
  = if path_exists h (normpath h path) then Ok (normpath h path)
    else Raise (ValueError
                  ((if PyStr.startswith "\\" (normpath h path)
                    then "Invalid or inaccessible UNC path: "
                    else "Invalid or inaccessible local path: ") +:+ normpath h path)).
Proof.
  intros HZ HY. unfold resolve_path. cbv zeta.
  rewrite drive_mappings_unmapped by done.
  by destruct (PyStr.startswith _ _), (path_exists h _).
Qed.

Lemma resolve_path_mapped (path drive_letter prefix : string) :
  PyStr.take 2 (normpath h path) = drive_letter →
  Dict.get drive_letter (drive_mappings h) = Some (Some prefix) →
  let unc_path := normpath h (prefix +:+ PyStr.drop 2 (normpath h path)) in
  resolve_path h path
  = if path_exists h unc_path then Ok unc_path
    else Raise (ValueError ("Invalid or inaccessible mapped drive path: " +:+ unc_path)).
Proof.
  intros Hd Hmap. unfold resolve_path. cbv zeta. rewrite Hd, Hmap.
  by destruct (path_exists h _).
Qed.

(** [None + path[2:]]: a [Z:] path with [UNC_PATH] unset is not answered
    with the path error. *)
Lemma resolve_path_Z_without_UNC_PATH (path : string) :
  getenv h "UNC_PATH" = None →
  PyStr.take 2 (normpath h path) = "Z:" →
  resolve_path h path = Raise TypeError.
Proof.
  intros Henv Hd. unfold resolve_path. cbv zeta.
  by rewrite Hd, drive_mappings_Z, Henv.
Qed.

End resolve_facts.

(** C4, as the program has it.  [resolve_path] works on the normalized
    path.  Without a mapped drive prefix it fails with the path error
    ([ValueError]) when the normalized path does not exist and returns the
    normalized path when it does, which is the given path whenever that
    is already in normal form.  With a mapped drive prefix whose share is
    configured, it fails with the path error when the substituted network
    path does not exist. *)
Theorem C4_resolve_path_checks_normalized_path (h : Host) (path : string) :
  (PyStr.take 2 (normpath h path) ≠ "Z:" →
   PyStr.take 2 (normpath h path) ≠ "Y:" →
   path_exists h (normpath h path) = false →
   ∃ msg, resolve_path h path = Raise (ValueError msg))
  ∧ (PyStr.take 2 (normpath h path) ≠ "Z:" →
     PyStr.take 2 (normpath h path) ≠ "Y:" →
     path_exists h (normpath h path) = true →
     resolve_path h path = Ok (normpath h path)
     ∧ (normpath h path = path → resolve_path h path = Ok path))
  ∧ (∀ prefix,
       Dict.get (PyStr.take 2 (normpath h path)) (drive_mappings h) = Some (Some prefix) →
       path_exists h (normpath h (prefix +:+ PyStr.drop 2 (normpath h path))) = false →
       ∃ msg, resolve_path h path = Raise (ValueError msg)).
Proof.
  split; [|split].
  - intros HZ HY Hex. rewrite resolve_path_unmapped, Hex by done. by eexists.
  - intros HZ HY Hex. rewrite resolve_path_unmapped, Hex by done.
    split; [done|]. by intros ->.
  - intros prefix Hmap Hex.
    rewrite (resolve_path_mapped h path _ prefix eq_refl Hmap).
    cbv zeta. rewrite Hex. by eexists.
Qed.

(** The three cases on the example server: a missing local path, an
    existing local path in normal form, and a [Y:] path whose share is not
    reachable. *)
Lemma C4_resolve_path_witness :
  (∃ msg, resolve_path ExampleHost.h "/srv/missing" = Raise (ValueError msg))
  ∧ resolve_path ExampleHost.h "/srv/x/docs" = Ok "/srv/x/docs"
  ∧ (∃ msg, resolve_path ExampleHost.h "Y:/plans" = Raise (ValueError msg)).
Proof.
  split; [|split].
  - apply (proj1 (C4_resolve_path_checks_normalized_path ExampleHost.h "/srv/missing"));
      vm_compute; congruence.
  - apply (proj1 (proj2 (C4_resolve_path_checks_normalized_path
                           ExampleHost.h "/srv/x/docs")));
      vm_compute; congruence.
  - apply (proj2 (proj2 (C4_resolve_path_checks_normalized_path ExampleHost.h "Y:/plans"))
             "\\Server\SharedDrive"); vm_compute; reflexivity.
Defined.

(** C4 as stated fails: an existing local path without a mapped drive
    prefix is not always returned unchanged.  [/srv/x/] exists on the
    example server and [resolve_path] answers [/srv/x]. *)
Lemma C4_resolve_path_counterexample :
  ¬ (∀ (h : Host) (path : string),
       path_exists h path = true →
       PyStr.take 2 path ≠ "Z:" → PyStr.take 2 path ≠ "Y:" →
       resolve_path h path = Ok path).
Proof.
  intros Hclaim.
  specialize (Hclaim ExampleHost.h "/srv/x/").
  assert (resolve_path ExampleHost.h "/srv/x/" = Ok "/srv/x") as Hres
    by (vm_compute; reflexivity).
  rewrite Hres in Hclaim.
  discriminate Hclaim; vm_compute; congruence.
Qed.

(** A path that does not exist can also be resolved without an error,
    when its normal form exists. *)
Example resolve_path_missing_component :
  path_exists ExampleHost.h "/srv/x/docs/missing/.." = false
  ∧ resolve_path ExampleHost.h "/srv/x/docs/missing/.." = Ok "/srv/x/docs".
Proof. by vm_compute. Qed.

(** With [UNC_PATH] unset, resolving a path whose normalized form does
    not start with [Z:] ends in a result or in the path error
    [ValueError], never in another exception. *)
Lemma resolve_path_without_UNC_PATH (h : Host) (path : string) :
  getenv h "UNC_PATH" = None →
  PyStr.take 2 (normpath h path) ≠ "Z:" →
  (∃ resolved, resolve_path h path = Ok resolved)
  ∨ (∃ msg, resolve_path h path = Raise (ValueError msg)).
Proof.
  intros Henv HZ.
  destruct (decide (PyStr.take 2 (normpath h path) = "Y:")) as [HY|HY].
  - rewrite (resolve_path_mapped h path "Y:" _ HY (drive_mappings_Y h)).
    cbv zeta. destruct (path_exists h _); [left|right]; by eexists.
  - rewrite resolve_path_unmapped by done.
    destruct (path_exists h _); [left|right]; by eexists.
Qed.

(** The example server has no [UNC_PATH]; local and [Y:] paths are still
    resolved or refused with the path error. *)
Example resolve_path_without_UNC_PATH_examples :
  getenv ExampleHost.h "UNC_PATH" = None
  ∧ ((∃ resolved, resolve_path ExampleHost.h "/srv/x/docs" = Ok resolved)
     ∨ (∃ msg, resolve_path ExampleHost.h "/srv/x/docs" = Raise (ValueError msg)))
  ∧ ((∃ resolved, resolve_path ExampleHost.h "Y:/plans" = Ok resolved)
     ∨ (∃ msg, resolve_path ExampleHost.h "Y:/plans" = Raise (ValueError msg))).
Proof.
  split; [reflexivity|]. split.
  - apply (resolve_path_without_UNC_PATH ExampleHost.h "/srv/x/docs");
      vm_compute; congruence.
  - apply (resolve_path_without_UNC_PATH ExampleHost.h "Y:/plans");
      vm_compute; congruence.
Qed.

(** C9, at a path without a drive prefix.  With [UNC_PATH] unset, the
    path [./Z:/plans] does not start with the mapped letter: its first two
    characters are [./].  [resolve_path] normalizes it to [Z:/plans],
    takes [Z:] as its drive letter and ends in [TypeError] at
    [None + path[2:]]: neither a result nor the [ValueError] its docstring
    announces. *)
Theorem C9_resolve_path_crashes_without_drive_prefix :
  getenv ExampleHost.h "UNC_PATH" = None
  ∧ PyStr.take 2 "./Z:/plans" = "./"
  ∧ normpath ExampleHost.h "./Z:/plans" = "Z:/plans"
  ∧ resolve_path ExampleHost.h "./Z:/plans" = Raise TypeError
  ∧ (∀ resolved, resolve_path ExampleHost.h "./Z:/plans" ≠ Ok resolved)
  ∧ (∀ msg, resolve_path ExampleHost.h "./Z:/plans" ≠ Raise (ValueError msg)).
Proof. by repeat split. Qed.

(** The hypothesis on the prefix is needed: a [Z:] path is answered with
    [TypeError] on the same server. *)
Example resolve_path_Z_crashes :
  resolve_path ExampleHost.h "Z:/plans" = Raise TypeError.
Proof. reflexivity. Qed.

(** ** Dictionaries *)

Module DictFacts.
Section dict_facts.
Context {K V : Type} `{EqDecision K}.
Implicit Types (k : K) (v : V) (d : list (K * V)).

Lemma get_Some_elem_of k v d : Dict.get k d = Some v → (k, v) ∈ d.
Proof.
  induction d as [|[k' v'] d IH]; simpl; [done|].
  case_decide as Hk; [intros [= ->]; subst; left | intros; right; auto].
Qed.

Lemma get_None k d : Dict.get k d = None ↔ k ∉ Dict.keys d.
Proof.
  unfold Dict.keys. induction d as [|[k' v'] d IH]; simpl.
  - split; [intros _; apply not_elem_of_nil | done].
  - rewrite not_elem_of_cons. case_decide; [split; [done|tauto]|]. rewrite IH. tauto.
Qed.

Lemma elem_of_get k v d : NoDup (Dict.keys d) → (k, v) ∈ d → Dict.get k d = Some v.
Proof.
  unfold Dict.keys. induction d as [|[k' v'] d IH]; simpl; intros Hnd Hin.
  - by apply elem_of_nil in Hin.
  - apply NoDup_cons in Hnd as [Hk' Hnd].
    apply elem_of_cons in Hin as [[= -> ->]|Hin]; [by rewrite decide_True|].
    rewrite decide_False; [by apply IH|].
    intros ->. apply Hk'. apply list_elem_of_fmap. by exists (k', v).
Qed.

Lemma keys_set k v d :
  Dict.keys (Dict.set k v d)
  = if decide (k ∈ Dict.keys d) then Dict.keys d else Dict.keys d ++ [k].
Proof.
  unfold Dict.keys. induction d as [|[k' v'] d IH]; [done|].
  cbn [Dict.set]. destruct (decide (k = k')) as [->|Hne].
  - rewrite !fmap_cons. cbn [fst]. rewrite decide_True; [done|left].
  - rewrite !fmap_cons. cbn [fst]. rewrite IH.
    destruct (decide (k ∈ d.*1)) as [Hin|Hin].
    + rewrite decide_True; [done|by right].
    + rewrite decide_False; [done|]. rewrite elem_of_cons. tauto.
Qed.

Lemma NoDup_keys_set k v d : NoDup (Dict.keys d) → NoDup (Dict.keys (Dict.set k v d)).
Proof.
  intros Hnd. rewrite keys_set. case_decide as Hin; [done|].
  apply NoDup_app. split_and!; [done| |apply NoDup_singleton].
  intros x Hx Hx'. apply list_elem_of_singleton in Hx'. by subst.
Qed.

Lemma get_set k k' v d :
  Dict.get k' (Dict.set k v d) = if decide (k' = k) then Some v else Dict.get k' d.
Proof.
  induction d as [|[k0 v0] d IH]; simpl.
  - by case_decide.
  - destruct (decide (k = k0)) as [->|Hk]; simpl.
    + by destruct (decide (k' = k0)).
    + rewrite IH. destruct (decide (k' = k0)) as [->|]; [|done].
      by rewrite decide_False.
Qed.

Lemma length_set_le k v d : (length d ≤ length (Dict.set k v d))%nat.
Proof.
  induction d as [|[k0 v0] d IH]; simpl; [lia|]. case_decide; simpl; lia.
Qed.

(** A dictionary that lists [ks] once each, with value [f c] under [c]. *)
Lemma get_tabulate (f : K → V) k (ks : list K) :
  Dict.get k ((fun c => (c, f c)) <$> ks) = if decide (k ∈ ks) then Some (f k) else None.
Proof.
  induction ks as [|k0 ks IH].
  - rewrite decide_False; [done|apply not_elem_of_nil].
  - rewrite fmap_cons. cbn [Dict.get]. destruct (decide (k = k0)) as [->|Hk].
    + rewrite decide_True; [done|left].
    + rewrite IH. destruct (decide (k ∈ ks)).
      * rewrite decide_True; [done|by right].
      * rewrite decide_False; [done|]. rewrite elem_of_cons. tauto.
Qed.

Lemma set_tabulate (f : K → V) k v (ks : list K) :
  NoDup ks → k ∈ ks →
  Dict.set k v ((fun c => (c, f c)) <$> ks)
  = (fun c => (c, if decide (c = k) then v else f c)) <$> ks.
Proof.
  induction ks as [|k0 ks IH]; intros Hnd Hin; [by apply elem_of_nil in Hin|].
  apply NoDup_cons in Hnd as [Hk0 Hnd]. rewrite !fmap_cons. cbn [Dict.set].
  destruct (decide (k = k0)) as [->|Hk].
  - rewrite decide_True by done. f_equal.
    apply list_fmap_ext. intros i c Hc.
    rewrite decide_False; [done|]. intros ->. apply Hk0.
    by apply list_elem_of_lookup_2 in Hc.
  - rewrite decide_False by done. f_equal. apply IH; [done|].
    apply elem_of_cons in Hin as [?|?]; [congruence|done].
Qed.

End dict_facts.
End DictFacts.

(** ** Grouping the selection by category *)

Lemma NoDup_categories : NoDup categories.
Proof. apply (bool_decide_unpack _). by vm_compute. Qed.

Lemma assigned_to_cons (category name modified_time c : string)
    (selection : list (string * (string * string))) :
  assigned_to category ((name, (modified_time, c)) :: selection)
  = (if decide (c = category) then [(name, modified_time)] else [])
    ++ assigned_to category selection.
Proof. reflexivity. Qed.

Lemma elem_of_assigned_to (category name modified_time : string)
    (selection : list (string * (string * string))) :
  (name, modified_time) ∈ assigned_to category selection
  ↔ (name, (modified_time, category)) ∈ selection.
Proof.
  induction selection as [|[n [m c]] t IH].
  - split; intros Hin; by apply elem_of_nil in Hin.
  - rewrite assigned_to_cons, elem_of_app, elem_of_cons, IH.
    destruct (decide (c = category)) as [->|Hc].
    + rewrite list_elem_of_singleton. split; (intros [Heq|Hin]; [left; congruence|by right]).
    + rewrite elem_of_nil. split; (intros [Heq|Hin]; [|by right]); [done|congruence].
Qed.

Lemma categorized_data_loop (f : string → list (string * string))
    (selection : list (string * (string * string))) :
  Forall (fun entry => entry.2.2 ∈ categories) selection →
  for_each selection
    (fun (categorized_data : Grouped) '(name, (modified_time, category)) =>
       match Dict.get category categorized_data with
       | None => Raise (KeyError category)
       | Some files =>
           Ok (Dict.set category (files ++ [(name, modified_time)]) categorized_data)
       end)
    ((fun cat => (cat, f cat)) <$> categories)
  = Ok ((fun cat => (cat, f cat ++ assigned_to cat selection)) <$> categories).
Proof.
  revert f. induction selection as [|[name [modified_time category]] t IH];
    intros f Hvalid.
  - cbn [for_each]. f_equal. apply list_fmap_ext. intros _ c _. by rewrite app_nil_r.
  - apply Forall_cons in Hvalid as [Hcat Hvalid]. cbn [snd] in Hcat.
    cbn [for_each]. rewrite DictFacts.get_tabulate, decide_True by done.
    cbn [mbind result_bind]. rewrite DictFacts.set_tabulate by (done || apply NoDup_categories).
    rewrite IH by done. f_equal. apply list_fmap_ext. intros _ c _.
    rewrite assigned_to_cons. f_equal.
    destruct (decide (c = category)) as [->|Hc].
    + rewrite decide_True by done. by rewrite <- app_assoc.
    + rewrite decide_False by done. done.
Qed.

Lemma categorized_data_Ok (selection : list (string * (string * string))) :
  Forall (fun entry => entry.2.2 ∈ categories) selection →
  categorized_data selection
  = Ok ((fun cat => (cat, assigned_to cat selection)) <$> categories).
Proof.
  intros Hvalid. unfold categorized_data.
  by rewrite (categorized_data_loop (fun _ => [])).
Qed.

(** A category outside the fixed list makes the grouping fail. *)
Example categorized_data_KeyError :
  categorized_data [("a.txt", ("2024-01-01", "DRAFT"))] = Raise (KeyError "DRAFT").
Proof. reflexivity. Qed.

(** C5. For every assignment map over the six categories, the grouped
    mapping has exactly the keys CONTRACTUAL, ARCHITECTURAL, STRUCTURAL,
    SERVICES, SAFETY, OTHER, in that order; each key maps to the files
    assigned to it, in the order of the map, and to the empty list when no
    file is assigned to it. *)
Theorem C5_grouped_has_the_six_categories
    (selection : list (string * (string * string))) :
  Forall (fun entry => entry.2.2 ∈ categories) selection →
  ∃ grouped,
    categorized_data selection = Ok grouped
    ∧ Dict.keys grouped
      = ["CONTRACTUAL"; "ARCHITECTURAL"; "STRUCTURAL"; "SERVICES"; "SAFETY"; "OTHER"]
    ∧ (∀ cat, cat ∈ categories →
         Dict.get cat grouped = Some (assigned_to cat selection))
    ∧ (∀ cat, cat ∈ categories →
         (∀ name modified_time, (name, (modified_time, cat)) ∉ selection) →
         Dict.get cat grouped = Some []).
Proof.
  intros Hvalid. eexists. split; [by apply categorized_data_Ok|].
  split; [reflexivity|].
  assert (∀ cat, cat ∈ categories →
    Dict.get cat ((fun cat => (cat, assigned_to cat selection)) <$> categories)
    = Some (assigned_to cat selection)) as Hget.
  { intros cat Hcat. by rewrite DictFacts.get_tabulate, decide_True. }
  split; [done|].
  intros cat Hcat Hnone. rewrite Hget by done. f_equal.
  destruct (assigned_to cat selection) as [|[name modified_time] rest] eqn:Hfiles;
    [done|].
  exfalso. apply (Hnone name modified_time).
  apply elem_of_assigned_to. rewrite Hfiles. left.
Qed.

(** The grouping of [{"a.txt": ("2024-01-01", "SAFETY")}]. *)
Lemma C5_grouped_witness :
  Forall (fun entry : string * (string * string) => entry.2.2 ∈ categories)
         [("a.txt", ("2024-01-01", "SAFETY"))]
  ∧ ∃ grouped,
      categorized_data [("a.txt", ("2024-01-01", "SAFETY"))] = Ok grouped
      ∧ grouped = [ ("CONTRACTUAL", []); ("ARCHITECTURAL", []); ("STRUCTURAL", []);
                    ("SERVICES", []); ("SAFETY", [("a.txt", "2024-01-01")]);
                    ("OTHER", []) ].
Proof.
  assert (Forall (fun entry : string * (string * string) => entry.2.2 ∈ categories)
                 [("a.txt", ("2024-01-01", "SAFETY"))]) as Hvalid.
  { apply Forall_singleton. simpl. apply (bool_decide_unpack _). by vm_compute. }
  split; [exact Hvalid|].
  destruct (C5_grouped_has_the_six_categories _ Hvalid) as (grouped & Hgrouped & _).
  exists grouped. split; [exact Hgrouped|].
  assert (Ok grouped
          = Ok [ ("CONTRACTUAL", []); ("ARCHITECTURAL", []); ("STRUCTURAL", []);
                 ("SERVICES", []); ("SAFETY", [("a.txt", "2024-01-01")]);
                 ("OTHER", []) ]) as [= ->]
    by (rewrite <- Hgrouped; vm_compute; reflexivity).
  reflexivity.
Defined.

(** ** The three generators *)

Lemma fold_file_rows {R} (file : string → string → R)
    (items : list (string * string)) (acc : list R) :
  fold_left (fun acc '(name, modified_time) => acc ++ [file name modified_time]) items acc
  = acc ++ ((fun nm => file nm.1 nm.2) <$> items).
Proof.
  revert acc. induction items as [|[name modified_time] t IH]; intros acc.
  - by rewrite app_nil_r.
  - cbn [fold_left]. rewrite IH, fmap_cons. by rewrite <- app_assoc.
Qed.

(** The loop shared by the three generators appends, entry by entry, the
    block of each entry. *)
Lemma fold_blocks {R} (heading : string → R) (file : string → string → R)
    (grouped : Grouped) (acc : list R) :
  fold_left
    (fun acc '(category, items) =>
       if truthy items then
         fold_left (fun acc '(name, modified_time) => acc ++ [file name modified_time])
                   items (acc ++ [heading category])
       else acc)
    grouped acc
  = acc ++ blocks heading file grouped.
Proof.
  unfold blocks. revert acc.
  induction grouped as [|[category items] t IH]; intros acc.
  - by rewrite app_nil_r.
  - cbn [fold_left]. rewrite IH, bind_cons. unfold category_block at 2.
    cbn [fst snd]. destruct (truthy items); [|done].
    rewrite fold_file_rows. by rewrite <- !app_assoc.
Qed.

Lemma blocks_with_files {R} (heading : string → R) (file : string → string → R)
    (grouped : Grouped) :
  blocks heading file grouped = with_files grouped ≫= category_rows heading file.
Proof.
  unfold blocks, with_files. induction grouped as [|[category items] t IH]; [done|].
  rewrite bind_cons, IH. unfold category_block at 1. cbn [fst snd].
  destruct items as [|item items].
  - by rewrite filter_cons_False by (cbn; tauto).
  - by rewrite filter_cons_True by (cbn; tauto).
Qed.

Lemma blocks_app {R} (heading : string → R) (file : string → string → R)
    (g1 g2 : Grouped) :
  blocks heading file (g1 ++ g2) = blocks heading file g1 ++ blocks heading file g2.
Proof. unfold blocks. apply bind_app. Qed.

Lemma generate_word_blocks (grouped : Grouped) :
  generate_word grouped = word_header :: blocks word_category_row word_file_row grouped.
Proof. exact (fold_blocks word_category_row word_file_row grouped [word_header]). Qed.

Lemma generate_pdf_blocks (grouped : Grouped) :
  generate_pdf grouped = pdf_header :: blocks pdf_category_row pdf_file_row grouped.
Proof. exact (fold_blocks pdf_category_row pdf_file_row grouped [pdf_header]). Qed.

Lemma generate_excel_data_blocks (grouped : Grouped) :
  generate_excel_data grouped = blocks excel_category_record excel_file_record grouped.
Proof. exact (fold_blocks excel_category_record excel_file_record grouped []). Qed.

(** The workbook is built from the records alone. *)
Lemma generate_excel_data_ext (g1 g2 : Grouped) :
  generate_excel_data g1 = generate_excel_data g2 → generate_excel g1 = generate_excel g2.
Proof. unfold generate_excel. by intros ->. Qed.

(** C2. In each of the three generators an entry with an empty file list
    contributes no row: removing the entry leaves the Word table, the PDF
    table and the Excel sheet as they are.  What each document holds after
    its header is, for the entries that have files and in their order, the
    heading of the category followed by one row per file. *)
Theorem C2_empty_categories_emit_no_row
    (before after : Grouped) (category : string) (grouped : Grouped) :
  (generate_word (before ++ (category, []) :: after) = generate_word (before ++ after)
   ∧ generate_pdf (before ++ (category, []) :: after) = generate_pdf (before ++ after)
   ∧ generate_excel (before ++ (category, []) :: after) = generate_excel (before ++ after))
  ∧ generate_word grouped
    = word_header :: (with_files grouped ≫= category_rows word_category_row word_file_row)
  ∧ generate_pdf grouped
    = pdf_header :: (with_files grouped ≫= category_rows pdf_category_row pdf_file_row)
  ∧ generate_excel_data grouped
    = with_files grouped ≫= category_rows excel_category_record excel_file_record
  ∧ generate_excel grouped = generate_excel (with_files grouped)
  ∧ Forall (fun entry => entry.2 ≠ []) (with_files grouped).
Proof.
  assert (∀ R (heading : string → R) file,
            blocks heading file (before ++ (category, []) :: after)
            = blocks heading file (before ++ after)) as Hskip.
  { intros R heading file. rewrite !blocks_app. f_equal. }
  split; [split_and!|split_and!].
  - by rewrite !generate_word_blocks, Hskip.
  - by rewrite !generate_pdf_blocks, Hskip.
  - apply generate_excel_data_ext. by rewrite !generate_excel_data_blocks, Hskip.
  - by rewrite generate_word_blocks, blocks_with_files.
  - by rewrite generate_pdf_blocks, blocks_with_files.
  - by rewrite generate_excel_data_blocks, blocks_with_files.
  - apply generate_excel_data_ext. rewrite !generate_excel_data_blocks.
    rewrite !blocks_with_files. unfold with_files. f_equal.
    symmetry. apply list_filter_filter_l. tauto.
  - unfold with_files. apply Forall_forall. intros [c items] Hin.
    apply list_elem_of_filter in Hin as [Hne _]. by destruct items.
Qed.

(** ** The sheet written by [generate_excel] *)

Lemma enumerate_cons {A} (start : nat) (x : A) (l : list A) :
  enumerate start (x :: l) = (start, x) :: enumerate (S start) l.
Proof. reflexivity. Qed.

Lemma ws_cells_ws_cell (r c : nat) (v : string) (ws : Worksheet) (r' c' : nat) :
  ws_cells (ws_cell r c v ws) !! (r', c')
  = if decide (r' = r ∧ c' = c) then Some v else ws_cells ws !! (r', c').
Proof.
  unfold ws_cell. cbn [ws_cells]. rewrite lookup_insert.
  destruct (decide ((r, c) = (r', c'))) as [[= -> ->]|Hne].
  - by rewrite decide_True.
  - rewrite decide_False; [done|]. intros [-> ->]. done.
Qed.

(** A loop that, for the [i]-th element [a] of a list, writes [value c a]
    into the columns [c] of [columns] of row [first_row + i]. *)
Section row_writer.
Context {A : Type} (write : nat → A → Worksheet → Worksheet).
Context (first_row : nat) (columns : list nat) (value : nat → A → string).
Hypothesis write_cells : ∀ i a ws r c,
  ws_cells (write i a ws) !! (r, c)
  = if decide (r = first_row + i ∧ c ∈ columns) then Some (value c a)
    else ws_cells ws !! (r, c).
Hypothesis write_max_row : ∀ i a ws,
  ws_max_row (write i a ws) = ws_max_row ws `max` (first_row + i).

Lemma write_loop_cells (l : list A) (start : nat) (ws : Worksheet) (r c : nat) :
  ws_cells (fold_left (fun ws '(i, a) => write i a ws) (enumerate start l) ws) !! (r, c)
  = if decide (c ∈ columns ∧ first_row + start ≤ r < first_row + start + length l)
    then value c <$> l !! (r - (first_row + start))
    else ws_cells ws !! (r, c).
Proof.
  revert start ws. induction l as [|a l IH]; intros start ws.
  - cbn [enumerate fold_left length]. rewrite decide_False; [done|]. simpl. lia.
  - rewrite enumerate_cons. cbn [fold_left]. rewrite IH, write_cells.
    cbn [length].
    destruct (decide (c ∈ columns)) as [Hc|Hc].
    + destruct (decide (r = first_row + start)) as [->|Hr].
      * rewrite decide_False by lia. rewrite decide_True by done.
        rewrite decide_True by (split; [done|lia]).
        by replace (first_row + start - (first_row + start)) with 0 by lia.
      * rewrite (decide_False (P := r = _ ∧ _)) by tauto.
        destruct (decide (first_row + S start ≤ r < first_row + S start + length l))
          as [Hin|Hout].
        -- rewrite decide_True by done. rewrite decide_True by (split; [done|lia]).
           replace (r - (first_row + start)) with (S (r - (first_row + S start))) by lia.
           done.
        -- rewrite decide_False by tauto. rewrite decide_False; [done|]. lia.
    + rewrite !(decide_False (P := c ∈ columns ∧ _)) by tauto.
      by rewrite decide_False by tauto.
Qed.

Lemma write_loop_max_row (l : list A) (start : nat) (ws : Worksheet) :
  ws_max_row (fold_left (fun ws '(i, a) => write i a ws) (enumerate start l) ws)
  = match l with
    | [] => ws_max_row ws
    | _ :: _ => ws_max_row ws `max` (first_row + start + length l - 1)
    end.
Proof.
  revert start ws. induction l as [|a l IH]; intros start ws; [done|].
  rewrite enumerate_cons. cbn [fold_left]. rewrite IH, write_max_row.
  destruct l as [|b l]; cbn [length]; lia.
Qed.

End row_writer.

Lemma column_writer_cells (col : nat) (field : ExcelRecord → string)
    (i : nat) (a : ExcelRecord) (ws : Worksheet) (r c : nat) :
  ws_cells (ws_cell (1 + 2 + i) col (field a) ws) !! (r, c)
  = if decide (r = 3 + i ∧ c ∈ [col]) then Some (field a) else ws_cells ws !! (r, c).
Proof.
  rewrite ws_cells_ws_cell.
  destruct (decide (r = 1 + 2 + i ∧ c = col)) as [[-> ->]|Hne].
  - rewrite decide_True; [done|]. split; [done|by left].
  - rewrite decide_False; [done|]. intros [-> Hc].
    apply list_elem_of_singleton in Hc. by apply Hne.
Qed.

Lemma row_writer_cells (i : nat) (row : ExcelRecord) (ws : Worksheet) (r c : nat) :
  ws_cells (ws_cell (i + 2) 2 (col_last_modified row)
              (ws_cell (i + 2) 1 (col_category_file_name row) ws)) !! (r, c)
  = if decide (r = 2 + i ∧ c ∈ [1; 2]) then Some (record_value c row)
    else ws_cells ws !! (r, c).
Proof.
  rewrite !ws_cells_ws_cell. unfold record_value.
  destruct (decide (r = i + 2 ∧ c = 2)) as [[-> ->]|H2].
  - rewrite decide_True; [done|]. split; [lia|by right; left].
  - destruct (decide (r = i + 2 ∧ c = 1)) as [[-> ->]|H1].
    + rewrite decide_True; [done|]. split; [lia|by left].
    + rewrite decide_False; [done|]. intros [-> Hc].
      apply elem_of_cons in Hc as [->|Hc]; [apply H1; lia|].
      apply list_elem_of_singleton in Hc as ->. apply H2. lia.
Qed.

Lemma elem_of_columns_12 (c : nat) : c ∈ [1; 2] ↔ c = 1 ∨ c = 2.
Proof. rewrite !elem_of_cons, elem_of_nil. tauto. Qed.

(** The cells of the sheet when there is at least one record, row by
    row: the header in row 1, record [i] in row [i + 2], and in the row
    after them, left over from [to_excel], the last record once more. *)
Lemma generate_excel_sheet (grouped : Grouped) (df : list ExcelRecord) :
  generate_excel_data grouped = df →
  df ≠ [] →
  ws_max_row (generate_excel grouped) = length df + 2
  ∧ ws_row (generate_excel grouped) 1 = excel_header_cells
  ∧ (∀ i record, df !! i = Some record →
       ws_row (generate_excel grouped) (i + 2) = record_cells record)
  ∧ (∀ record, last df = Some record →
       ws_row (generate_excel grouped) (length df + 2) = record_cells record).
Proof.
  intros Hdf Hne.
  assert (0 < length df) as Hlen by (destruct df; [done|cbn [length]; lia]).
  assert (ws_max_row (generate_excel grouped) = length df + 2
          ∧ ∀ r c, c = 1 ∨ c = 2 →
              ws_cells (generate_excel grouped) !! (r, c)
              = if decide (2 ≤ r < 2 + length df)
                then record_value c <$> df !! (r - 2)
                else if decide (r = 1)
                     then Some (if decide (c = 1) then "Category / File Name"
                                else "Last Modified")
                     else if decide (3 ≤ r < 3 + length df)
                          then record_value c <$> df !! (r - 3)
                          else None) as [Hmax Hcells].
  { unfold generate_excel. rewrite Hdf. cbv zeta. clear Hdf.
    unfold to_excel. destruct df as [|d df']; [done|]. clear Hne.
    remember (d :: df') as df eqn:Edf. clear Edf d df'.
    change (enumerate 1 excel_columns) with
      [(1, ("Category / File Name", col_category_file_name));
       (2, ("Last Modified", col_last_modified))].
    change (enumerate 1 ["Category / File Name"; "Last Modified"]) with
      [(1, "Category / File Name"); (2, "Last Modified")].
    cbn [fold_left]. split.
    - rewrite (write_loop_max_row _ 2) by (intros; cbn [ws_cell ws_max_row]; lia).
      cbn [ws_cell ws_max_row].
      rewrite !(write_loop_max_row _ 3) by (intros; cbn [ws_cell ws_max_row]; lia).
      destruct df; cbn [ws_cell ws_max_row ws_empty length] in *; lia.
    - intros r c Hc12.
      rewrite (write_loop_cells _ 2 [1; 2] record_value row_writer_cells).
      rewrite !ws_cells_ws_cell.
      rewrite (write_loop_cells _ 3 [2] (fun _ => col_last_modified)
                 (column_writer_cells 2 col_last_modified)).
      rewrite (write_loop_cells _ 3 [1] (fun _ => col_category_file_name)
                 (column_writer_cells 1 col_category_file_name)).
      rewrite !ws_cells_ws_cell. cbn [ws_empty ws_cells]. rewrite lookup_empty.
      assert (c ∈ [1; 2]) as Hc by by apply elem_of_columns_12.
      destruct (decide (2 ≤ r < 2 + length df)) as [Hr|Hr].
      + rewrite decide_True by (split; [done|lia]).
        by replace (r - (2 + 0)) with (r - 2) by lia.
      + rewrite decide_False by (intros [_ ?]; lia).
        destruct (decide (r = 1)) as [->|Hr1].
        * destruct Hc12 as [-> | ->].
          -- rewrite decide_False by lia. by rewrite decide_True.
          -- by rewrite decide_True.
        * rewrite !(decide_False (P := r = 1 ∧ _)) by tauto.
          unfold record_value.
          destruct (decide (3 ≤ r < 3 + length df)) as [Hr3|Hr3].
          -- destruct Hc12 as [-> | ->].
             ++ rewrite decide_False
                  by (intros [Hin _]; by apply list_elem_of_singleton in Hin).
                rewrite decide_True by (split; [by left|lia]).
                by replace (r - (3 + 0)) with (r - 3) by lia.
             ++ rewrite decide_True by (split; [by left|lia]).
                by replace (r - (3 + 0)) with (r - 3) by lia.
          -- rewrite !(decide_False (P := _ ∧ 3 + 0 ≤ r < _)) by (intros [_ ?]; lia).
             rewrite !(decide_False (P := r = _ ∧ _)) by lia. done. }
  assert (∀ r, ws_row (generate_excel grouped) r
               = (ws_cells (generate_excel grouped) !! (r, 1),
                  ws_cells (generate_excel grouped) !! (r, 2))) as Hrow by done.
  split; [done|]. split; [|split].
  - rewrite Hrow, !Hcells by tauto.
    rewrite !decide_False by lia. by rewrite !decide_True by done.
  - intros i record Hi. rewrite Hrow, !Hcells by tauto.
    apply lookup_lt_Some in Hi as Hlt.
    rewrite !decide_True by lia.
    replace (i + 2 - 2) with i by lia. by rewrite Hi.
  - intros record Hlast. rewrite Hrow, !Hcells by tauto.
    rewrite !(decide_False (P := 2 ≤ length df + 2 < 2 + length df)) by lia.
    rewrite !(decide_False (P := length df + 2 = 1)) by lia.
    rewrite !(decide_True (P := 3 ≤ length df + 2 < 3 + length df)) by lia.
    rewrite last_lookup in Hlast.
    replace (length df + 2 - 3) with (pred (length df)) by lia.
    by rewrite Hlast.
Qed.

(** All rows of the sheet: the header, the records, and the last record
    a second time when there is one. *)
Lemma generate_excel_rows (grouped : Grouped) :
  ws_rows (generate_excel grouped)
  = excel_header_cells
    :: (record_cells <$> (generate_excel_data grouped
                          ++ option_list (last (generate_excel_data grouped)))).
Proof.
  destruct (generate_excel_data grouped) as [|d df'] eqn:Hdf.
  - unfold generate_excel. rewrite Hdf. by vm_compute.
  - rewrite <- Hdf.
    destruct (generate_excel_sheet grouped _ eq_refl) as (Hmax & Hhead & Hrec & Hlast);
      [by rewrite Hdf|].
    set (df := generate_excel_data grouped) in *.
    destruct (last df) as [record|] eqn:Hl;
      [|apply last_None in Hl; subst df; by rewrite Hdf in Hl].
    unfold ws_rows. rewrite Hmax.
    replace (length df + 2) with (S (length df + 1)) by lia.
    cbn [seq]. rewrite seq_app, !fmap_cons, !fmap_app. cbn [seq option_list].
    rewrite Hhead. f_equal.
    replace (2 + length df) with (length df + 2) by lia.
    rewrite fmap_cons, (Hlast record eq_refl). f_equal.
    apply list_eq. intros i. rewrite !list_lookup_fmap.
    destruct (df !! i) as [r|] eqn:Hi.
    + apply lookup_lt_Some in Hi as Hlt.
      rewrite lookup_seq_lt by done. cbn [fmap option_fmap option_map].
      replace (2 + i) with (i + 2) by lia. f_equal. by apply Hrec.
    + apply lookup_ge_None in Hi. by rewrite lookup_seq_ge by done.
Qed.

(** The last file row is written twice.  [to_excel] put record [i] into
    row [i + 3]; the rewrite loop puts it into row [i + 2]; row
    [n + 2] keeps what [to_excel] wrote. *)
Lemma generate_excel_repeats_last_record (grouped : Grouped) (record : ExcelRecord) :
  last (generate_excel_data grouped) = Some record →
  ws_rows (generate_excel grouped)
  = excel_header_cells :: (record_cells <$> generate_excel_data grouped)
    ++ [record_cells record].
Proof.
  intros Hlast. rewrite generate_excel_rows, Hlast.
  by rewrite fmap_app.
Qed.

(** For every assignment map over the six categories, the sheet starts
    with the header row, followed by the categories that have files in the
    fixed order CONTRACTUAL, ARCHITECTURAL, STRUCTURAL, SERVICES, SAFETY,
    OTHER, whatever the order of the assignments: these first rows are,
    per such category, its heading row and then one row per file assigned
    to it, the name indented by three blanks in the first column and the
    date in the second.  What follows these rows is
    [generate_excel_repeats_last_record]. *)
Lemma excel_first_rows_follow_category_order
    (selection : list (string * (string * string))) :
  Forall (fun entry => entry.2.2 ∈ categories) selection →
  ∃ grouped,
    categorized_data selection = Ok grouped
    ∧ grouped = (fun cat => (cat, assigned_to cat selection)) <$> categories
    ∧ (with_files grouped).*1 `sublist_of` categories
    ∧ let records :=
        with_files grouped ≫= category_rows excel_category_record excel_file_record in
      take (1 + length records) (ws_rows (generate_excel grouped))
      = excel_header_cells :: (record_cells <$> records).
Proof.
  intros Hvalid. eexists. split; [by apply categorized_data_Ok|].
  split; [done|]. split.
  - unfold with_files. etrans; [apply fmap_sublist, sublist_filter|].
    rewrite <- list_fmap_compose.
    transitivity (id <$> categories); [reflexivity|]. by rewrite list_fmap_id.
  - cbv zeta. rewrite generate_excel_rows, generate_excel_data_blocks, blocks_with_files.
    cbn [take Nat.add]. f_equal. rewrite fmap_app.
    rewrite take_app_length'; [done|]. by rewrite length_fmap.
Qed.

(** The scenario: the first five rows are the header, SAFETY, [a.txt],
    OTHER, [b.txt], also when [b.txt] was assigned first. *)
Example excel_first_rows_of_the_scenario :
  (∃ grouped,
     categorized_data Scenario.selection = Ok grouped
     ∧ take 5 (ws_rows (generate_excel grouped)) = Scenario.first_rows)
  ∧ (∃ grouped,
       categorized_data Scenario.selection_swapped = Ok grouped
       ∧ take 5 (ws_rows (generate_excel grouped)) = Scenario.first_rows).
Proof.
  split.
  - destruct (excel_first_rows_follow_category_order Scenario.selection)
      as (grouped & Hgrouped & -> & _ & Hrows).
    { repeat constructor; simpl; apply (bool_decide_unpack _); by vm_compute. }
    eexists. split; [exact Hgrouped|]. exact Hrows.
  - destruct (excel_first_rows_follow_category_order Scenario.selection_swapped)
      as (grouped & Hgrouped & -> & _ & Hrows).
    { repeat constructor; simpl; apply (bool_decide_unpack _); by vm_compute. }
    eexists. split; [exact Hgrouped|]. exact Hrows.
Qed.

(** C6, on the scenario.  With [a.txt] assigned SAFETY and [b.txt]
    assigned OTHER the categories come in the fixed order, but the sheet
    is not the five stated rows: after the header, SAFETY, [a.txt], OTHER
    and [b.txt] it has a sixth row that repeats [b.txt].  [to_excel] wrote
    record [i] to row [i + 3], the rewrite loop writes it to row
    [index + 2], and row 6 keeps what [to_excel] wrote. *)
Theorem C6_excel_scenario_has_a_sixth_row :
  ∃ grouped,
    categorized_data Scenario.selection = Ok grouped
    ∧ ws_rows (generate_excel grouped)
      = [ (Some "Category / File Name", Some "Last Modified");
          (Some "SAFETY", Some "");
          (Some "   a.txt", Some "2024-01-01");
          (Some "OTHER", Some "");
          (Some "   b.txt", Some "2024-01-02");
          (Some "   b.txt", Some "2024-01-02") ]
    ∧ length (ws_rows (generate_excel grouped)) = 6
    ∧ length Scenario.stated_rows = 5
    ∧ ws_rows (generate_excel grouped) ≠ Scenario.stated_rows.
Proof.
  eexists. split; [reflexivity|].
  split; [by vm_compute|]. split; [by vm_compute|]. split; [reflexivity|].
  intros Heq. apply (f_equal length) in Heq. vm_compute in Heq. discriminate Heq.
Qed.

(** ** The session state *)

Module DictEq.
Section dict_eq.
Context {K V : Type} `{EqDecision K, EqDecision V}.
Implicit Types (a b : list (K * V)).

Lemma eqb_true a b :
  Dict.eqb a b = true
  ↔ length a = length b ∧ ∀ k v, (k, v) ∈ a → Dict.get k b = Some v.
Proof.
  unfold Dict.eqb. rewrite andb_true_iff, bool_decide_eq_true, forallb_forall.
  split; intros [Hlen Hall]; (split; [done|]).
  - intros k v Hin. apply list_elem_of_In in Hin.
    specialize (Hall (k, v) Hin). by apply bool_decide_eq_true in Hall.
  - intros [k v] Hin. apply bool_decide_eq_true. apply Hall.
    by apply list_elem_of_In.
Qed.

(** On dictionaries (keys occur once) the comparison is equality of
    content: the same items, in any order. *)
Lemma eqb_Permutation a b :
  NoDup (Dict.keys a) → NoDup (Dict.keys b) →
  Dict.eqb a b = true ↔ a ≡ₚ b.
Proof.
  intros Ha Hb. rewrite eqb_true. split.
  - intros [Hlen Hall].
    apply submseteq_length_Permutation; [|by rewrite Hlen].
    apply NoDup_submseteq; [by apply (NoDup_fmap_1 fst)|].
    intros [k v] Hin. apply DictFacts.get_Some_elem_of. by apply Hall.
  - intros Hperm. split; [by rewrite Hperm|].
    intros k v Hin. apply DictFacts.elem_of_get; [done|]. by rewrite <- Hperm.
Qed.

End dict_eq.
End DictEq.

(** The comparison does not look at the order of insertion. *)
Example eqb_ignores_order :
  Dict.eqb Scenario.selection_swapped Scenario.selection = true.
Proof. reflexivity. Qed.

(** C3. When the newly built assignment map equals the stored one, as
    Python compares dictionaries, the session state stays as it is, the
    generated documents included.  When it differs, the stored map is
    replaced by the new one and every generated document is dropped; the
    three format options keep their values. *)
Theorem C3_buffers_dropped_only_on_change
    (st : SessionState) (selection : list (string * (string * string))) :
  (Dict.eqb selection (category_selection st) = true →
   detect_change selection st = st)
  ∧ (Dict.eqb selection (category_selection st) = false →
     generated_files (detect_change selection st) = ∅
     ∧ category_selection (detect_change selection st) = selection
     ∧ generate_excel_option (detect_change selection st) = generate_excel_option st
     ∧ generate_word_option (detect_change selection st) = generate_word_option st
     ∧ generate_pdf_option (detect_change selection st) = generate_pdf_option st).
Proof.
  unfold detect_change. split; intros ->; cbn [negb]; [done|]. by repeat split.
Qed.

(** In the example session the two documents survive the same map given
    in another order, and are dropped when [a.txt] moves to OTHER. *)
Lemma C3_buffers_witness :
  (Dict.eqb Scenario.selection_swapped (category_selection ExampleSession.st) = true
   ∧ generated_files (detect_change Scenario.selection_swapped ExampleSession.st)
     = generated_files ExampleSession.st
   ∧ size (generated_files ExampleSession.st) = 2)
  ∧ (Dict.eqb ExampleSession.changed_selection (category_selection ExampleSession.st)
     = false
     ∧ generated_files (detect_change ExampleSession.changed_selection ExampleSession.st)
       = ∅).
Proof.
  split.
  - split; [reflexivity|]. split; [|by vm_compute].
    by rewrite (proj1 (C3_buffers_dropped_only_on_change
                         ExampleSession.st Scenario.selection_swapped) eq_refl).
  - split; [reflexivity|].
    exact (proj1 (proj2 (C3_buffers_dropped_only_on_change
                           ExampleSession.st ExampleSession.changed_selection)
                        eq_refl)).
Defined.

(** ** The assignment loop *)

Lemma selectbox_categories (ui : nat → nat) (index : nat) :
  selectbox ui categories index ∈ categories.
Proof.
  unfold selectbox. destruct (categories !! ui index) as [c|] eqn:Hc.
  - by apply list_elem_of_lookup_2 in Hc.
  - cbn. left.
Qed.

Lemma Forall_dict_set {K V} `{EqDecision K} (P : K * V → Prop) (k : K) (v : V)
    (d : list (K * V)) :
  (∀ k' v', P (k', v') → P (k', v)) → P (k, v) → Forall P d → Forall P (Dict.set k v d).
Proof.
  intros Hval Hkv. induction 1 as [|[k' v'] d Hx Hd IH]; cbn [Dict.set].
  - by apply Forall_singleton.
  - case_decide; constructor; eauto.
Qed.

Section assignment_loop.
Context (ui : nat → nat).

Lemma assignment_loop_keys (l : list (nat * FileItem))
    (acc : list (string * (string * string))) :
  NoDup (Dict.keys acc) → NoDup (Dict.keys (fold_left (assign_step ui) l acc)).
Proof.
  revert acc. induction l as [|[index item] l IH]; intros acc Hacc; [done|].
  cbn [fold_left]. apply IH. by apply DictFacts.NoDup_keys_set.
Qed.

Lemma assignment_loop_valid (l : list (nat * FileItem))
    (acc : list (string * (string * string))) :
  Forall (fun entry => entry.2.2 ∈ categories) acc →
  Forall (fun entry => entry.2.2 ∈ categories) (fold_left (assign_step ui) l acc).
Proof.
  revert acc. induction l as [|[index item] l IH]; intros acc Hacc; [done|].
  cbn [fold_left]. apply IH.
  apply Forall_dict_set; [intros; apply selectbox_categories| |done].
  apply selectbox_categories.
Qed.

(** The last file listed under a name decides what is stored for it. *)
Lemma assignment_loop_get (name : string) (l : list (nat * FileItem))
    (acc : list (string * (string * string))) :
  Dict.get name (fold_left (assign_step ui) l acc)
  = match last (entries_named ui name l) with
    | Some v => Some v
    | None => Dict.get name acc
    end.
Proof.
  revert acc. induction l as [|[index item] l IH]; intros acc; [done|].
  cbn [fold_left]. rewrite IH. unfold entries_named at 2. rewrite bind_cons.
  fold (entries_named ui name l). rewrite last_app.
  destruct (last (entries_named ui name l)) as [v|]; [done|].
  unfold assign_step. rewrite DictFacts.get_set.
  destruct (decide (item_name item = name)) as [<-|Hne].
  - by rewrite decide_True.
  - by rewrite decide_False by done.
Qed.

End assignment_loop.

Lemma assign_categories_keys (ui : nat → nat) (items : list FileItem) :
  NoDup (Dict.keys (assign_categories ui items)).
Proof. apply (assignment_loop_keys ui (enumerate 0 items) []). constructor. Qed.

Lemma assign_categories_valid (ui : nat → nat) (items : list FileItem) :
  Forall (fun entry => entry.2.2 ∈ categories) (assign_categories ui items).
Proof. apply (assignment_loop_valid ui (enumerate 0 items) []). constructor. Qed.

Lemma assign_categories_get (ui : nat → nat) (items : list FileItem) (name : string) :
  Dict.get name (assign_categories ui items)
  = last (entries_named ui name (enumerate 0 items)).
Proof.
  etrans; [exact (assignment_loop_get ui name (enumerate 0 items) [])|].
  by destruct (last _).
Qed.

(** The store built by the page always groups without a [KeyError]. *)
Lemma assign_categories_grouped (ui : nat → nat) (items : list FileItem) :
  categorized_data (assign_categories ui items)
  = Ok ((fun cat => (cat, assigned_to cat (assign_categories ui items))) <$> categories).
Proof. apply categorized_data_Ok, assign_categories_valid. Qed.

Lemma fmap_list_bind {A B C} (f : B → C) (g : A → list B) (l : list A) :
  f <$> (l ≫= g) = l ≫= (fun x => f <$> g x).
Proof.
  induction l as [|x l IH]; [done|]. rewrite !bind_cons, fmap_app. by f_equal.
Qed.

(** A name is grouped under one category only, and once. *)
Lemma assigned_names_NoDup (selection : list (string * (string * string))) :
  NoDup (Dict.keys selection) →
  NoDup ((categories ≫= fun cat => assigned_to cat selection).*1).
Proof.
  intros Hkeys.
  assert (∀ cat, (assigned_to cat selection).*1 `sublist_of` Dict.keys selection) as Hsub.
  { intros cat. unfold Dict.keys.
    induction selection as [|[n [m c]] t IH]; [done|].
    rewrite assigned_to_cons, fmap_app, fmap_cons. cbn [fst].
    apply NoDup_cons in Hkeys as [_ Hkeys].
    destruct (decide (c = cat)).
    - cbn [fmap list_fmap app]. apply sublist_skip. by apply IH.
    - cbn [fmap list_fmap app]. apply sublist_cons. by apply IH. }
  rewrite fmap_list_bind.
  apply NoDup_bind; [|intros cat _; eapply sublist_NoDup; [exact Hkeys|apply Hsub]
                     |apply NoDup_categories].
  intros c1 c2 name _ _ H1 H2.
  apply list_elem_of_fmap in H1 as ([n1 m1] & -> & H1).
  apply list_elem_of_fmap in H2 as ([n2 m2] & Hn & H2). cbn [fst] in *. subst n2.
  apply elem_of_assigned_to in H1, H2.
  apply DictFacts.elem_of_get in H1, H2; try done. congruence.
Qed.

(** C10, on two files of one name.  The listing has two records; the
    store keeps one entry for [a.txt], with the date and the category of
    the file listed later; the grouping, the Word table and the PDF table
    show [a.txt] once.  The Excel sheet shows it twice: its last record is
    repeated in the row after the records. *)
Theorem C10_same_name_store_and_exports :
  length SameName.items = 2
  ∧ assign_categories SameName.ui SameName.items = [("a.txt", ("2024-01-02", "OTHER"))]
  ∧ ∃ grouped,
      categorized_data (assign_categories SameName.ui SameName.items) = Ok grouped
      ∧ grouped ≫= snd = [("a.txt", "2024-01-02")]
      ∧ generate_word grouped
        = [word_header; word_category_row "OTHER"; word_file_row "a.txt" "2024-01-02"]
      ∧ generate_pdf grouped
        = [pdf_header; pdf_category_row "OTHER"; pdf_file_row "a.txt" "2024-01-02"]
      ∧ generate_excel_data grouped
        = [excel_category_record "OTHER"; excel_file_record "a.txt" "2024-01-02"]
      ∧ ws_rows (generate_excel grouped)
        = [ (Some "Category / File Name", Some "Last Modified");
            (Some "OTHER", Some "");
            (Some "   a.txt", Some "2024-01-02");
            (Some "   a.txt", Some "2024-01-02") ].
Proof.
  split; [reflexivity|]. split; [reflexivity|].
  eexists. split; [reflexivity|]. by vm_compute.
Qed.

(** ** Generating the selected documents *)

(** With the store built by the page and libraries that return, the
    button body ends in no exception, leaves the store and the options
    alone, and puts a document under the key of each selected format. *)
Lemma generate_selected_files_Ok (ui : nat → nat) (items : list FileItem)
    (st : SessionState) :
  category_selection st = assign_categories ui items →
  ∃ grouped st',
    categorized_data (category_selection st) = Ok grouped
    ∧ generate_selected_files st = Ok st'
    ∧ category_selection st' = category_selection st
    ∧ (generate_excel_option st = true →
       generated_files st' !! "excel" = Some (ExcelBuffer (generate_excel grouped)))
    ∧ (generate_word_option st = true →
       generated_files st' !! "word" = Some (WordBuffer (generate_word grouped)))
    ∧ (generate_pdf_option st = true →
       generated_files st' !! "pdf" = Some (PdfBuffer (generate_pdf grouped))).
Proof.
  intros Hsel. unfold generate_selected_files.
  rewrite Hsel, assign_categories_grouped. cbn [mbind result_bind].
  eexists _, _. split; [done|]. split; [done|]. cbn [category_selection generated_files].
  split; [done|]. split_and!; intros ->.
  - destruct (generate_word_option st), (generate_pdf_option st);
      by simplify_map_eq.
  - destruct (generate_pdf_option st); by simplify_map_eq.
  - by simplify_map_eq.
Qed.

(** * Further properties of the program *)

(** ** Enumeration *)

Lemma map_result_Raise {A B} (f : A → Result B) (l : list A) (e : exn) :
  map_result f l = Raise e → ∃ x, x ∈ l ∧ f x = Raise e.
Proof.
  induction l as [|x t IH]; cbn [map_result]; [done|].
  destruct (f x) as [y|e'] eqn:Hx; cbn [mbind result_bind].
  - destruct (map_result f t) as [ys|e'] eqn:Ht; cbn [mbind result_bind]; [done|].
    intros [= ->]. destruct (IH eq_refl) as (z & Hz & Hfz).
    exists z. split; [by right|done].
  - intros [= ->]. exists x. split; [left|done].
Qed.

Lemma get_files_item_Raise (h : Host) (path original_path root name : string) (e : exn) :
  get_files_item h path original_path root name = Raise e →
  read_modified_time h (normpath h (path_join h root name)) = Raise e
  ∧ is_OSError e = false.
Proof.
  unfold get_files_item, read_modified_time. cbv zeta.
  destruct (getmtime h _ ≫= _) as [date|e'];
    cbn [try_except mbind result_bind]; [done|].
  destruct (is_OSError e') eqn:Hos; cbn [mbind result_bind]; [done|].
  by intros [= ->].
Qed.

Lemma startswith_split (p s : string) :
  PyStr.startswith p s = true → p +:+ PyStr.drop (String.length p) s = s.
Proof.
  revert s. induction p as [|a p IH]; intros s Hs.
  - by rewrite PyStrFacts.drop_0.
  - destruct s as [|b s]; [done|]. cbn [PyStr.startswith] in Hs.
    destruct (decide (a = b)) as [->|]; [|done].
    cbn [String.length PyStr.drop].
    change (String b p +:+ PyStr.drop (String.length p) s)
      with (String b (p +:+ PyStr.drop (String.length p) s)).
    by rewrite IH.
Qed.

(** Replacing a text by itself changes nothing. *)
Lemma replace1_same (old s : string) : PyStr.replace1 old old s = s.
Proof.
  induction s as [|c s IH].
  - destruct old; reflexivity.
  - cbn [PyStr.replace1].
    destruct (PyStr.startswith old (String c s)) eqn:Hstart.
    + by apply startswith_split.
    + by rewrite IH.
Qed.

(** X1. A successful enumeration returns exactly one record per file name
    of the walk, in the order of the walk: the names of the records are
    the walked names, and their absolute paths the normalized joins of
    walk root and name. *)
Theorem X1_get_files_one_record_per_file
    (h : Host) (path original_path : string) (items : list FileItem) :
  get_files h path original_path = Ok items →
  length items = length (walked_files h path)
  ∧ item_name <$> items = (walked_files h path).*2
  ∧ item_full_path <$> items
    = (fun file => normpath h (path_join h file.1 file.2)) <$> walked_files h path.
Proof.
  intros Hget. apply get_files_Ok in Hget.
  induction Hget as [|[root name] item files items Hitem _ IH]; [done|].
  apply get_files_item_Ok in Hitem. cbv zeta in Hitem.
  destruct Hitem as (Hname & Hfull & _). destruct IH as (Hlen & Hnames & Hfulls).
  rewrite !fmap_cons. cbn [length fst snd]. by rewrite Hlen, Hname, Hfull, Hnames, Hfulls.
Qed.

(** The three files of the example server. *)
Lemma X1_get_files_witness :
  get_files ExampleHost.h "/srv/x" "C:\shared" = Ok ExampleItems.items
  ∧ item_name <$> ExampleItems.items = (walked_files ExampleHost.h "/srv/x").*2.
Proof.
  assert (get_files ExampleHost.h "/srv/x" "C:\shared" = Ok ExampleItems.items) as Hget
    by (vm_compute; reflexivity).
  split; [exact Hget|].
  exact (proj1 (proj2 (X1_get_files_one_record_per_file _ _ _ _ Hget))).
Defined.

Lemma get_files_Raise
    (h : Host) (path original_path : string) (e : exn) :
  get_files h path original_path = Raise e →
  (path_exists h path = false
   ∧ e = ValueError ("Base path does not exist: " +:+ path))
  ∨ (path_exists h path = true
     ∧ is_OSError e = false
     ∧ ∃ root name,
         (root, name) ∈ walked_files h path
         ∧ read_modified_time h (normpath h (path_join h root name)) = Raise e).
Proof.
  intros Hget. destruct (path_exists h path) eqn:Hex.
  - right. split; [done|].
    rewrite get_files_walk in Hget by done.
    apply map_result_Raise in Hget as ([root name] & Hin & Hitem).
    apply get_files_item_Raise in Hitem as [Hread Hos].
    split; [done|]. by exists root, name.
  - left. split; [done|]. rewrite get_files_missing_base in Hget by done.
    by injection Hget as <-.
Qed.

(** X2. [get_files] fails in two ways only: with the ValueError "Base path
    does not exist: ..." when the base path is missing, or, the base path
    existing, with the exception that reading the date of some walked file
    raised, which is then not of class OSError.  An OSError never leaves
    [get_files]. *)
Theorem X2_get_files_failures
    (h : Host) (path original_path : string) (e : exn) :
  get_files h path original_path = Raise e →
  (path_exists h path = false
   ∧ e = ValueError ("Base path does not exist: " +:+ path))
  ∨ (path_exists h path = true
     ∧ is_OSError e = false
     ∧ ∃ root name,
         (root, name) ∈ walked_files h path
         ∧ read_modified_time h (normpath h (path_join h root name)) = Raise e).
Proof. apply get_files_Raise. Qed.

(** A base path that is not on the example server. *)
Lemma X2_get_files_failures_witness :
  get_files ExampleHost.h "/srv/y" "C:\shared"
  = Raise (ValueError "Base path does not exist: /srv/y")
  ∧ path_exists ExampleHost.h "/srv/y" = false.
Proof.
  assert (get_files ExampleHost.h "/srv/y" "C:\shared"
          = Raise (ValueError "Base path does not exist: /srv/y")) as Hget
    by (vm_compute; reflexivity).
  split; [exact Hget|].
  destruct (X2_get_files_failures _ _ _ _ Hget) as [[Hex _]|[Hex _]];
    [exact Hex|vm_compute in Hex; discriminate Hex].
Defined.

(** X3. When the display base is the base path itself, as for a local
    path that [resolve_path] returns as typed, the relative path of every
    record is its absolute path. *)
Theorem X3_same_base_relative_is_absolute
    (h : Host) (path : string) (items : list FileItem) (item : FileItem) :
  get_files h path path = Ok items →
  item ∈ items →
  item_relative_full_path item = item_full_path item.
Proof.
  intros Hget Hin. apply get_files_Ok in Hget.
  apply list_elem_of_lookup in Hin as [i Hi].
  destruct (Forall2_lookup_r _ _ _ _ _ Hget Hi) as ([root name] & _ & Hitem).
  apply get_files_item_Ok in Hitem. cbv zeta in Hitem.
  destruct Hitem as (_ & -> & -> & _). apply replace1_same.
Qed.

Lemma X3_same_base_witness :
  ∃ items item,
    get_files ExampleHost.h "/srv/x" "/srv/x" = Ok items
    ∧ item ∈ items
    ∧ item_full_path item = "/srv/x/docs/a.txt"
    ∧ item_relative_full_path item = item_full_path item.
Proof.
  eexists _, _.
  assert (get_files ExampleHost.h "/srv/x" "/srv/x"
          = Ok [ {| item_name := "a.txt"; item_modified_time := "2024-01-01";
                    item_full_path := "/srv/x/docs/a.txt";
                    item_relative_full_path := "/srv/x/docs/a.txt" |};
                 {| item_name := "locked.txt"; item_modified_time := "Unavailable";
                    item_full_path := "/srv/x/docs/locked.txt";
                    item_relative_full_path := "/srv/x/docs/locked.txt" |};
                 {| item_name := "b.txt"; item_modified_time := "2024-01-02";
                    item_full_path := "/srv/x/srv/x/b.txt";
                    item_relative_full_path := "/srv/x/srv/x/b.txt" |} ]) as Hget
    by (vm_compute; reflexivity).
  split; [exact Hget|].
  assert ({| item_name := "a.txt"; item_modified_time := "2024-01-01";
             item_full_path := "/srv/x/docs/a.txt";
             item_relative_full_path := "/srv/x/docs/a.txt" |}
          ∈ [ {| item_name := "a.txt"; item_modified_time := "2024-01-01";
                 item_full_path := "/srv/x/docs/a.txt";
                 item_relative_full_path := "/srv/x/docs/a.txt" |};
              {| item_name := "locked.txt"; item_modified_time := "Unavailable";
                 item_full_path := "/srv/x/docs/locked.txt";
                 item_relative_full_path := "/srv/x/docs/locked.txt" |};
              {| item_name := "b.txt"; item_modified_time := "2024-01-02";
                 item_full_path := "/srv/x/srv/x/b.txt";
                 item_relative_full_path := "/srv/x/srv/x/b.txt" |} ]) as Hin by left.
  split; [exact Hin|]. split; [reflexivity|].
  exact (X3_same_base_relative_is_absolute _ _ _ _ Hget Hin).
Defined.

(** ** Path resolution and the listing step *)

Lemma resolve_path_Ok_exists (h : Host) (path resolved : string) :
  resolve_path h path = Ok resolved → path_exists h resolved = true.
Proof.
  unfold resolve_path. cbv zeta.
  destruct (Dict.get _ (drive_mappings h)) as [[prefix|]|]; [| done |].
  - destruct (path_exists h (normpath h _)) eqn:Hex; cbn [negb]; [|done].
    by intros [= <-].
  - destruct (PyStr.startswith _ _);
      (destruct (path_exists h (normpath h path)) eqn:Hex; cbn [negb]; [|done]);
      by intros [= <-].
Qed.

Lemma resolve_path_Raise (h : Host) (path : string) (e : exn) :
  resolve_path h path = Raise e →
  (e = TypeError
   ∧ PyStr.take 2 (normpath h path) = "Z:" ∧ getenv h "UNC_PATH" = None)
  ∨ ∃ msg, e = ValueError msg.
Proof.
  destruct (decide (PyStr.take 2 (normpath h path) = "Z:")) as [HZ|HZ].
  - destruct (getenv h "UNC_PATH") as [prefix|] eqn:Henv.
    + rewrite (resolve_path_mapped h path "Z:" prefix HZ)
        by (by rewrite drive_mappings_Z, Henv).
      cbv zeta. destruct (path_exists h _); [done|]. intros [= <-]. right. by eexists.
    + rewrite resolve_path_Z_without_UNC_PATH by done. intros [= <-]. by left.
  - destruct (decide (PyStr.take 2 (normpath h path) = "Y:")) as [HY|HY].
    + rewrite (resolve_path_mapped h path "Y:" _ HY (drive_mappings_Y h)).
      cbv zeta. destruct (path_exists h _); [done|]. intros [= <-]. right. by eexists.
    + rewrite resolve_path_unmapped by done.
      destruct (path_exists h _); [done|]. intros [= <-]. right. by eexists.
Qed.

(** X4. A path returned by [resolve_path] exists, whichever branch
    produced it: the normalized local or UNC path, or the network path
    substituted for a mapped drive. *)
Theorem X4_resolved_path_exists (h : Host) (path resolved : string) :
  resolve_path h path = Ok resolved → path_exists h resolved = true.
Proof. apply resolve_path_Ok_exists. Qed.

Lemma X4_resolved_path_witness :
  resolve_path ExampleHost.h "/srv/x/docs/" = Ok "/srv/x/docs"
  ∧ path_exists ExampleHost.h "/srv/x/docs" = true.
Proof.
  assert (resolve_path ExampleHost.h "/srv/x/docs/" = Ok "/srv/x/docs") as Hres
    by (vm_compute; reflexivity).
  split; [exact Hres|]. exact (X4_resolved_path_exists _ _ _ Hres).
Defined.

(** X5. [resolve_path] raises nothing but [ValueError] and [TypeError],
    and [TypeError] exactly when the drive letter of the normalized path
    is [Z:] and [UNC_PATH] is not set. *)
Theorem X5_resolve_path_exceptions (h : Host) (path : string) :
  (resolve_path h path = Raise TypeError
   ↔ PyStr.take 2 (normpath h path) = "Z:" ∧ getenv h "UNC_PATH" = None)
  ∧ ∀ e, resolve_path h path = Raise e → e = TypeError ∨ ∃ msg, e = ValueError msg.
Proof.
  split.
  - split.
    + intros Hres. apply resolve_path_Raise in Hres as [(_ & HZ & Henv)|[msg Hmsg]];
        [done|discriminate Hmsg].
    + intros [HZ Henv]. by apply resolve_path_Z_without_UNC_PATH.
  - intros e Hres. apply resolve_path_Raise in Hres as [(-> & _)|Hmsg]; [by left|by right].
Qed.

(** X6. Resolving is stable: a path that [resolve_path] returned, that is
    in normal form and does not itself start with a mapped drive letter,
    resolves to itself. *)
Theorem X6_resolve_path_stable (h : Host) (path resolved : string) :
  resolve_path h path = Ok resolved →
  normpath h resolved = resolved →
  PyStr.take 2 resolved ≠ "Z:" →
  PyStr.take 2 resolved ≠ "Y:" →
  resolve_path h resolved = Ok resolved.
Proof.
  intros Hres Hnorm HZ HY. apply resolve_path_Ok_exists in Hres.
  rewrite resolve_path_unmapped by (by rewrite Hnorm).
  by rewrite Hnorm, Hres.
Qed.

Lemma X6_resolve_path_stable_witness :
  resolve_path ExampleHost.h "/srv/x/docs/" = Ok "/srv/x/docs"
  ∧ resolve_path ExampleHost.h "/srv/x/docs" = Ok "/srv/x/docs".
Proof.
  assert (resolve_path ExampleHost.h "/srv/x/docs/" = Ok "/srv/x/docs") as Hres
    by (vm_compute; reflexivity).
  split; [exact Hres|].
  apply (X6_resolve_path_stable _ _ _ Hres); vm_compute; congruence.
Defined.

(** X7. When the listing step ([resolve_path], then [get_files]) ends in
    the page's error message, the message is the text of a [ValueError]
    raised by [resolve_path], or, once the path was resolved, of a
    [ValueError] raised while reading the date of a walked file.  The
    listing step never ends in the "Base path does not exist" of
    [get_files]: the path was checked before [get_files] is called.  The
    later steps of the [try] body are outside this statement. *)
Theorem X7_error_messages_shown (h : Host) (directory_path msg : string) :
  list_directory h directory_path = Ok (ErrorMessage msg) →
  resolve_path h directory_path = Raise (ValueError msg)
  ∨ ∃ resolved root name,
      resolve_path h directory_path = Ok resolved
      ∧ (root, name) ∈ walked_files h resolved
      ∧ read_modified_time h (normpath h (path_join h root name))
        = Raise (ValueError msg).
Proof.
  unfold list_directory. destruct (truthy_str directory_path); [|done].
  destruct (resolve_path h directory_path) as [resolved|e] eqn:Hres;
    cbn [mbind result_bind].
  - destruct (truthy_str resolved && path_exists h resolved) eqn:Hcond; [|done].
    apply andb_true_iff in Hcond as [_ Hex].
    destruct (get_files h resolved directory_path) as [items|e] eqn:Hget;
      cbn [mbind result_bind].
    + by destruct (truthy items).
    + destruct e; try done. intros [= ->]. right.
      apply get_files_Raise in Hget as [[Hmissing _]|(_ & _ & root & name & Hin & Hread)];
        [congruence|].
      by exists resolved, root, name.
  - destruct e; try done. intros [= ->]. by left.
Qed.

Lemma X7_error_messages_witness :
  list_directory ExampleHost.h "/srv/missing"
  = Ok (ErrorMessage "Invalid or inaccessible local path: /srv/missing")
  ∧ resolve_path ExampleHost.h "/srv/missing"
    = Raise (ValueError "Invalid or inaccessible local path: /srv/missing").
Proof.
  assert (list_directory ExampleHost.h "/srv/missing"
          = Ok (ErrorMessage "Invalid or inaccessible local path: /srv/missing"))
    as Hpage by (vm_compute; reflexivity).
  split; [exact Hpage|].
  destruct (X7_error_messages_shown _ _ _ Hpage) as [Hres|(r & ? & ? & Hres & _)];
    [exact Hres|vm_compute in Hres; discriminate Hres].
Defined.

(** X8. The page catches every [ValueError].  An exception that leaves
    the listing step is the [TypeError] of a [Z:] path without [UNC_PATH],
    or an exception, neither [ValueError] nor of class OSError, raised
    while reading the date of a walked file. *)
Theorem X8_uncaught_exceptions (h : Host) (directory_path : string) (e : exn) :
  list_directory h directory_path = Raise e →
  (∀ msg, e ≠ ValueError msg)
  ∧ ((e = TypeError
      ∧ PyStr.take 2 (normpath h directory_path) = "Z:"
      ∧ getenv h "UNC_PATH" = None)
     ∨ ∃ resolved root name,
         resolve_path h directory_path = Ok resolved
         ∧ (root, name) ∈ walked_files h resolved
         ∧ read_modified_time h (normpath h (path_join h root name)) = Raise e
         ∧ is_OSError e = false).
Proof.
  unfold list_directory. destruct (truthy_str directory_path); [|done].
  destruct (resolve_path h directory_path) as [resolved|e'] eqn:Hres;
    cbn [mbind result_bind].
  - destruct (truthy_str resolved && path_exists h resolved) eqn:Hcond; [|done].
    apply andb_true_iff in Hcond as [_ Hex].
    destruct (get_files h resolved directory_path) as [items|e'] eqn:Hget;
      cbn [mbind result_bind].
    + by destruct (truthy items).
    + apply get_files_Raise in Hget as [[Hmissing _]|(_ & Hos & root & name & Hin & Hread)];
        [congruence|].
      destruct e'; try done; intros [= <-]; (split; [done|]); right;
        by exists resolved, root, name.
  - apply resolve_path_Raise in Hres as [(-> & HZ & Henv)|[msg ->]]; [|done].
    intros [= <-]. split; [done|]. by left.
Qed.

Lemma X8_uncaught_exceptions_witness :
  list_directory ExampleHost.h "Z:/plans" = Raise TypeError
  ∧ ∀ msg, TypeError ≠ ValueError msg.
Proof.
  assert (list_directory ExampleHost.h "Z:/plans" = Raise TypeError) as Hpage
    by (vm_compute; reflexivity).
  split; [exact Hpage|]. exact (proj1 (X8_uncaught_exceptions _ _ _ Hpage)).
Defined.

(** ** Grouping *)

Lemma for_each_app {A S} (l1 l2 : list A) (step : S → A → Result S) (acc : S) :
  for_each (l1 ++ l2) step acc = acc' ← for_each l1 step acc; for_each l2 step acc'.
Proof.
  revert acc. induction l1 as [|x t IH]; intros acc; [done|].
  cbn [app for_each]. destruct (step acc x) as [acc'|e]; cbn [mbind result_bind]; [|done].
  apply IH.
Qed.

Lemma Forall_or_first {A} (P : A → Prop) `{!∀ x, Decision (P x)} (l : list A) :
  Forall P l ∨ ∃ pre x post, l = pre ++ x :: post ∧ Forall P pre ∧ ¬ P x.
Proof.
  induction l as [|x t IH]; [by left|].
  destruct (decide (P x)) as [Hx|Hx].
  - destruct IH as [Ht|(pre & y & post & -> & Hpre & Hy)].
    + left. by constructor.
    + right. exists (x :: pre), y, post. split; [done|]. split; [by constructor|done].
  - right. by exists [], x, t.
Qed.

Lemma categorized_data_first_unknown
    (pre post : list (string * (string * string))) (name modified_time category : string) :
  Forall (fun entry => entry.2.2 ∈ categories) pre →
  category ∉ categories →
  categorized_data (pre ++ (name, (modified_time, category)) :: post)
  = Raise (KeyError category).
Proof.
  intros Hpre Hcat. unfold categorized_data. rewrite for_each_app.
  rewrite (categorized_data_loop (fun _ => [])) by done.
  cbn [mbind result_bind for_each].
  by rewrite DictFacts.get_tabulate, decide_False by done.
Qed.

(** X9. The grouping succeeds exactly when every assigned category is one
    of the six; otherwise it raises [KeyError] for the category of the
    first entry, in the order of the map, whose category is unknown. *)
Theorem X9_grouping_fails_on_unknown_category
    (selection : list (string * (string * string))) :
  (Forall (fun entry => entry.2.2 ∈ categories) selection
   ↔ ∃ grouped, categorized_data selection = Ok grouped)
  ∧ ∀ pre name modified_time category post,
      selection = pre ++ (name, (modified_time, category)) :: post →
      Forall (fun entry => entry.2.2 ∈ categories) pre →
      category ∉ categories →
      categorized_data selection = Raise (KeyError category).
Proof.
  split; [split|].
  - intros Hvalid. eexists. by apply categorized_data_Ok.
  - intros [grouped Hgrouped].
    destruct (Forall_or_first (fun entry : string * (string * string) =>
                                 entry.2.2 ∈ categories) selection)
      as [Hvalid|(pre & [name [modified_time category]] & post & -> & Hpre & Hcat)];
      [done|].
    by rewrite categorized_data_first_unknown in Hgrouped.
  - intros pre name modified_time category post -> Hpre Hcat.
    by apply categorized_data_first_unknown.
Qed.

(** X10. For an assignment map with distinct names and known categories,
    grouping neither drops nor repeats a file: a file is listed under a
    category exactly when the map gives it that date and that category,
    and the names over all categories are the names of the map, each
    once. *)
Theorem X10_grouping_keeps_every_file
    (selection : list (string * (string * string))) :
  NoDup (Dict.keys selection) →
  Forall (fun entry => entry.2.2 ∈ categories) selection →
  ∃ grouped,
    categorized_data selection = Ok grouped
    ∧ (∀ category files name modified_time,
         (category, files) ∈ grouped →
         (name, modified_time) ∈ files
         ↔ Dict.get name selection = Some (modified_time, category))
    ∧ NoDup ((grouped ≫= snd).*1)
    ∧ (grouped ≫= snd).*1 ≡ₚ Dict.keys selection.
Proof.
  intros Hkeys Hvalid. eexists. split; [by apply categorized_data_Ok|].
  assert (((fun cat => (cat, assigned_to cat selection)) <$> categories) ≫= snd
          = categories ≫= fun cat => assigned_to cat selection) as Hflat.
  { by rewrite list_fmap_bind. }
  assert (NoDup ((categories ≫= fun cat => assigned_to cat selection).*1)) as Hnd
    by by apply assigned_names_NoDup.
  split; [|split].
  - intros category files name modified_time Hin.
    apply list_elem_of_fmap in Hin as (cat & [= -> ->] & _).
    rewrite elem_of_assigned_to. split.
    + by apply DictFacts.elem_of_get.
    + apply DictFacts.get_Some_elem_of.
  - by rewrite Hflat.
  - rewrite Hflat. apply NoDup_Permutation; [done|done|].
    intros name. unfold Dict.keys. rewrite !list_elem_of_fmap. split.
    + intros ([n m] & -> & Hin). apply list_elem_of_bind in Hin as (cat & Hin & _).
      apply elem_of_assigned_to in Hin. by exists (n, (m, cat)).
    + intros ([n [m cat]] & -> & Hin). exists (n, m). split; [done|].
      apply list_elem_of_bind. exists cat. split; [by apply elem_of_assigned_to|].
      rewrite Forall_forall in Hvalid. apply (Hvalid _ Hin).
Qed.

Lemma X10_grouping_witness :
  NoDup (Dict.keys Scenario.selection)
  ∧ ∃ grouped,
      categorized_data Scenario.selection = Ok grouped
      ∧ (grouped ≫= snd).*1 ≡ₚ ["a.txt"; "b.txt"].
Proof.
  assert (NoDup (Dict.keys Scenario.selection)) as Hkeys
    by (apply (bool_decide_unpack _); by vm_compute).
  assert (Forall (fun entry : string * (string * string) => entry.2.2 ∈ categories)
                 Scenario.selection) as Hvalid
    by (repeat constructor; simpl; apply (bool_decide_unpack _); by vm_compute).
  split; [exact Hkeys|].
  destruct (X10_grouping_keeps_every_file _ Hkeys Hvalid)
    as (grouped & Hgrouped & _ & _ & Hperm).
  exists grouped. split; [exact Hgrouped|exact Hperm].
Defined.

(** ** The assignment store *)

Lemma dict_set_absent {K V} `{EqDecision K} (k : K) (v : V) (d : list (K * V)) :
  k ∉ Dict.keys d → Dict.set k v d = d ++ [(k, v)].
Proof.
  unfold Dict.keys. induction d as [|[k' v'] d IH]; intros Hk; [done|].
  rewrite fmap_cons, not_elem_of_cons in Hk. destruct Hk as [Hne Hk]. cbn [fst] in Hne.
  cbn [Dict.set app]. rewrite decide_False by done. by rewrite IH.
Qed.

Lemma assignment_loop_distinct (ui : nat → nat) (l : list (nat * FileItem))
    (acc : list (string * (string * string))) :
  NoDup (Dict.keys acc ++ ((fun entry => item_name entry.2) <$> l)) →
  fold_left (assign_step ui) l acc = acc ++ (store_entry ui <$> l).
Proof.
  revert acc. induction l as [|[index item] l IH]; intros acc Hnd.
  - by rewrite app_nil_r.
  - cbn [fold_left assign_step]. rewrite fmap_cons in Hnd. cbn [snd] in Hnd.
    assert (item_name item ∉ Dict.keys acc) as Hfresh.
    { apply NoDup_app in Hnd as (_ & Hdisj & _). intros Hin.
      apply (Hdisj _ Hin). left. }
    rewrite dict_set_absent by done. rewrite IH.
    + rewrite <- app_assoc. done.
    + unfold Dict.keys in *. rewrite fmap_app, <- app_assoc. exact Hnd.
Qed.

Lemma enumerate_snd {A} (start : nat) (l : list A) : (enumerate start l).*2 = l.
Proof. unfold enumerate. apply snd_zip. by rewrite length_seq. Qed.

(** X11. What the store holds for a name is the date and the chosen
    category of the last listed file of that name, and nothing when no
    listed file has the name; the keys of the store are distinct. *)
Theorem X11_store_holds_last_listed (ui : nat → nat) (items : list FileItem)
    (name : string) :
  Dict.get name (assign_categories ui items)
  = last (entries_named ui name (enumerate 0 items))
  ∧ (name ∉ item_name <$> items → Dict.get name (assign_categories ui items) = None)
  ∧ NoDup (Dict.keys (assign_categories ui items)).
Proof.
  split; [apply assign_categories_get|]. split; [|apply assign_categories_keys].
  intros Hname. rewrite assign_categories_get.
  assert (entries_named ui name (enumerate 0 items) = []) as ->; [|done].
  assert (∀ l : list (nat * FileItem),
            name ∉ item_name <$> l.*2 → entries_named ui name l = []) as Hnone.
  { induction l as [|[index item] l IH]; intros Hl; [done|].
    rewrite !fmap_cons, not_elem_of_cons in Hl. destruct Hl as [Hne Hl]. cbn [snd] in Hne.
    unfold entries_named. rewrite bind_cons. rewrite decide_False by done.
    by apply IH. }
  apply Hnone. by rewrite enumerate_snd.
Qed.

(** X12. When the listed files have distinct names, the store has one
    entry per file, in the order of the listing, each with the file's
    date and the category chosen in its selectbox. *)
Theorem X12_store_of_distinct_names (ui : nat → nat) (items : list FileItem) :
  NoDup (item_name <$> items) →
  assign_categories ui items = store_entry ui <$> enumerate 0 items
  ∧ length (assign_categories ui items) = length items.
Proof.
  intros Hnd.
  assert (assign_categories ui items = store_entry ui <$> enumerate 0 items) as Hstore.
  { etrans; [apply (assignment_loop_distinct ui (enumerate 0 items) [])|done].
    assert ((fun entry : nat * FileItem => item_name entry.2) <$> enumerate 0 items
            = item_name <$> items) as ->.
    { rewrite <- (enumerate_snd 0 items) at 2. by rewrite <- list_fmap_compose. }
    exact Hnd. }
  split; [done|].
  rewrite Hstore, length_fmap. unfold enumerate.
  rewrite length_zip_with, length_seq. lia.
Qed.

Lemma X12_store_witness :
  NoDup (item_name <$> ExampleItems.items)
  ∧ assign_categories (fun _ => 4) ExampleItems.items
    = [ ("a.txt", ("2024-01-01", "SAFETY"));
        ("locked.txt", ("Unavailable", "SAFETY"));
        ("b.txt", ("2024-01-02", "SAFETY")) ].
Proof.
  assert (NoDup (item_name <$> ExampleItems.items)) as Hnd
    by (apply (bool_decide_unpack _); by vm_compute).
  split; [exact Hnd|].
  rewrite (proj1 (X12_store_of_distinct_names (fun _ => 4) _ Hnd)).
  reflexivity.
Defined.

(** ** The session state across reruns *)

Lemma dict_eqb_refl {K V} `{EqDecision K, EqDecision V} (d : list (K * V)) :
  NoDup (Dict.keys d) → Dict.eqb d d = true.
Proof. intros Hnd. by apply DictEq.eqb_Permutation. Qed.

Lemma generate_selected_files_selection (st st' : SessionState) :
  generate_selected_files st = Ok st' →
  category_selection st' = category_selection st
  ∧ generate_excel_option st' = generate_excel_option st
  ∧ generate_word_option st' = generate_word_option st
  ∧ generate_pdf_option st' = generate_pdf_option st.
Proof.
  unfold generate_selected_files.
  destruct (categorized_data (category_selection st)) as [grouped|e];
    cbn [mbind result_bind]; [|done].
  by intros [= <-].
Qed.

Lemma detect_change_same_selection
    (selection : list (string * (string * string))) (st st2 : SessionState) :
  NoDup (Dict.keys selection) →
  category_selection st2 = category_selection (detect_change selection st) →
  detect_change selection st2 = st2.
Proof.
  intros Hnd Hsel. unfold detect_change in *.
  destruct (Dict.eqb selection (category_selection st)) eqn:Heq; cbn [negb] in Hsel.
  - rewrite Hsel, Heq. done.
  - cbn [category_selection] in Hsel. rewrite Hsel, dict_eqb_refl by done. done.
Qed.

(** X13. A rerun of the script with unchanged selectboxes changes nothing:
    change detection applied twice is change detection applied once, and
    documents generated after it are still there after the next run with
    the same assignment map. *)
Theorem X13_rerun_keeps_state
    (selection : list (string * (string * string))) (st : SessionState) :
  NoDup (Dict.keys selection) →
  detect_change selection (detect_change selection st) = detect_change selection st
  ∧ ∀ st', generate_selected_files (detect_change selection st) = Ok st' →
           detect_change selection st' = st'.
Proof.
  intros Hnd. split.
  - by apply (detect_change_same_selection selection st).
  - intros st' Hgen. apply (detect_change_same_selection selection st); [done|].
    by destruct (generate_selected_files_selection _ _ Hgen) as [Hsel _].
Qed.

Lemma X13_rerun_witness :
  NoDup (Dict.keys ExampleSession.changed_selection)
  ∧ detect_change ExampleSession.changed_selection
      (detect_change ExampleSession.changed_selection ExampleSession.st)
    = detect_change ExampleSession.changed_selection ExampleSession.st
  ∧ generated_files (detect_change ExampleSession.changed_selection ExampleSession.st)
    = ∅.
Proof.
  assert (NoDup (Dict.keys ExampleSession.changed_selection)) as Hnd
    by (apply (bool_decide_unpack _); by vm_compute).
  split; [exact Hnd|]. split; [|reflexivity].
  exact (proj1 (X13_rerun_keeps_state _ ExampleSession.st Hnd)).
Defined.


(** ** The three documents side by side *)


Lemma blocks_no_files {R} (heading : string → R) (file : string → string → R)
    (grouped : Grouped) :
  Forall (fun entry => entry.2 = []) grouped → blocks heading file grouped = [].
Proof.
  unfold blocks. induction 1 as [|[category items] t Hx _ IH]; [done|].
  cbn [snd] in Hx. subst items. by rewrite bind_cons, IH.
Qed.

Lemma length_blocks {R} (heading : string → R) (file : string → string → R)
    (grouped : Grouped) :
  length (blocks heading file grouped)
  = length (with_files grouped) + length (grouped ≫= snd).
Proof.
  unfold blocks, with_files. induction grouped as [|[category items] t IH]; [done|].
  rewrite !bind_cons, !length_app, IH. unfold category_block. cbn [fst snd].
  destruct items as [|item items].
  - rewrite filter_cons_False by (cbn; tauto). cbn [truthy length]. lia.
  - rewrite filter_cons_True by (cbn; tauto). cbn [truthy length].
    rewrite length_fmap. cbn [length]. lia.
Qed.


(** X17. The sheet [generate_excel] writes has the header in row 1 and
    the records from row 2 on; when there is at least one record the row
    after the records holds the last record once more, so the sheet has
    two rows more than there are records, and one row when there are
    none. *)
Theorem X17_excel_sheet_rows (grouped : Grouped) :
  ws_rows (generate_excel grouped)
  = excel_header_cells
    :: (record_cells <$> (generate_excel_data grouped
                          ++ option_list (last (generate_excel_data grouped))))
  ∧ length (ws_rows (generate_excel grouped))
    = match generate_excel_data grouped with
      | [] => 1
      | _ :: _ => length (generate_excel_data grouped) + 2
      end.
Proof.
  split; [apply generate_excel_rows|].
  rewrite generate_excel_rows. cbn [length]. rewrite length_fmap, length_app.
  destruct (generate_excel_data grouped) as [|d df'] eqn:Hdf; [done|].
  destruct (last (d :: df')) as [record|] eqn:Hlast.
  - simpl. lia.
  - by apply last_None in Hlast.
Qed.

(** X18. When no category has a file, as for an empty assignment map,
    each document consists of its header row alone. *)
Theorem X18_no_files_header_only (grouped : Grouped) :
  Forall (fun entry => entry.2 = []) grouped →
  generate_word grouped = [word_header]
  ∧ generate_pdf grouped = [pdf_header]
  ∧ generate_excel_data grouped = []
  ∧ ws_rows (generate_excel grouped) = [excel_header_cells].
Proof.
  intros Hempty.
  rewrite generate_excel_rows, generate_word_blocks, generate_pdf_blocks,
    generate_excel_data_blocks.
  by rewrite !blocks_no_files.
Qed.

(** The grouping of the empty store. *)
Lemma X18_no_files_witness :
  ∃ grouped,
    categorized_data [] = Ok grouped
    ∧ Forall (fun entry => entry.2 = []) grouped
    ∧ generate_word grouped = [word_header]
    ∧ ws_rows (generate_excel grouped) = [excel_header_cells].
Proof.
  eexists. split; [reflexivity|].
  match goal with |- Forall ?P ?g ∧ _ => assert (Forall P g) as Hempty end.
  { repeat constructor. }
  split; [exact Hempty|].
  destruct (X18_no_files_header_only _ Hempty) as (Hword & _ & _ & Hexcel).
  split; [exact Hword|exact Hexcel].
Defined.

(** X19. The Word table and the PDF table have one header row, one
    heading row per category that has files and one row per file; the
    Excel records are as many without the header. *)
Theorem X19_row_counts (grouped : Grouped) :
  length (generate_word grouped)
  = 1 + length (with_files grouped) + length (grouped ≫= snd)
  ∧ length (generate_pdf grouped) = length (generate_word grouped)
  ∧ length (generate_excel_data grouped) + 1 = length (generate_word grouped).
Proof.
  rewrite generate_word_blocks, generate_pdf_blocks, generate_excel_data_blocks.
  cbn [length]. rewrite !length_blocks. lia.
Qed.

Lemma X5_resolve_path_exceptions_witness :
  resolve_path ExampleHost.h "Z:/plans" = Raise TypeError
  ∧ resolve_path ExampleHost.h "/srv/missing" ≠ Raise TypeError.
Proof.
  split.
  - apply (proj1 (X5_resolve_path_exceptions ExampleHost.h "Z:/plans")).
    split; reflexivity.
  - intros Hres.
    apply (proj1 (X5_resolve_path_exceptions ExampleHost.h "/srv/missing")) in Hres.
    destruct Hres as [HZ _]. vm_compute in HZ. discriminate HZ.
Defined.

Lemma X9_grouping_fails_witness :
  categorized_data
    [("a.txt", ("2024-01-01", "SAFETY")); ("b.txt", ("2024-01-02", "DRAFT"));
     ("c.txt", ("2024-01-03", "FINAL"))]
  = Raise (KeyError "DRAFT").
Proof.
  apply (proj2 (X9_grouping_fails_on_unknown_category _)
           [("a.txt", ("2024-01-01", "SAFETY"))] "b.txt" "2024-01-02" "DRAFT"
           [("c.txt", ("2024-01-03", "FINAL"))] eq_refl).
  - repeat constructor; simpl; apply (bool_decide_unpack _); by vm_compute.
  - apply (bool_decide_unpack _). by vm_compute.
Defined.

Lemma X11_store_witness :
  Dict.get "a.txt" (assign_categories SameName.ui SameName.items)
  = Some ("2024-01-02", "OTHER")
  ∧ Dict.get "z.txt" (assign_categories SameName.ui SameName.items) = None.
Proof.
  split.
  - rewrite (proj1 (X11_store_holds_last_listed SameName.ui SameName.items "a.txt")).
    reflexivity.
  - apply (proj1 (proj2 (X11_store_holds_last_listed
                           SameName.ui SameName.items "z.txt"))).
    apply (bool_decide_unpack _). by vm_compute.
Defined.

(** ** Generating with libraries that can raise *)

Lemma lib_for_each_Ok {E A S} (step : S → A → S) (stepM : S → A → Lib E S)
    (l : list A) (acc r : S) :
  (∀ acc x acc', x ∈ l → stepM acc x = LibOk acc' → acc' = step acc x) →
  lib_for_each l stepM acc = LibOk r →
  r = fold_left step l acc.
Proof.
  revert acc. induction l as [|x t IH]; intros acc Hstep; cbn [lib_for_each fold_left].
  - by intros [= <-].
  - destruct (stepM acc x) as [acc'|e] eqn:Hx; cbn [mbind lib_bind]; [|done].
    rewrite <- (Hstep acc x acc') by (done || left).
    apply IH. intros acc0 y acc1 Hy. apply Hstep. by right.
Qed.

Section library_generators.
Context {E : Type} (enc : Encoders E).

Lemma generate_word_lib_Ok (grouped : Grouped) (table : list WordRow) :
  generate_word_lib enc grouped = LibOk table → table = generate_word grouped.
Proof.
  unfold generate_word_lib.
  destruct (docx_text enc "Category / File Name") as [[]|e]; cbn [mbind lib_bind]; [|done].
  destruct (docx_text enc "Last Modified") as [[]|e]; cbn [mbind lib_bind]; [|done].
  destruct (lib_for_each grouped _ _) as [t|e] eqn:Hloop; cbn [mbind lib_bind]; [|done].
  destruct (docx_save enc t) as [[]|e]; cbn [mbind lib_bind]; [|done].
  intros [= <-]. unfold generate_word.
  eapply lib_for_each_Ok; [|exact Hloop].
  intros acc [category items] acc' _. destruct (truthy items); [|by intros [= <-]].
  destruct (docx_text enc category) as [[]|e]; cbn [mbind lib_bind]; [|done].
  destruct (docx_text enc "") as [[]|e]; cbn [mbind lib_bind]; [|done].
  intros Hinner. eapply lib_for_each_Ok; [|exact Hinner].
  intros acc0 [name modified_time] acc1 _.
  destruct (docx_text enc name) as [[]|e]; cbn [mbind lib_bind]; [|done].
  destruct (docx_text enc modified_time) as [[]|e]; cbn [mbind lib_bind]; [|done].
  by intros [= <-].
Qed.

Lemma generate_pdf_lib_Ok (grouped : Grouped) (data : list (PdfCell * PdfCell)) :
  generate_pdf_lib enc grouped = LibOk data → data = generate_pdf grouped.
Proof.
  unfold generate_pdf_lib.
  destruct (pdf_paragraph enc "Category / File Name" Heading4) as [[]|e];
    cbn [mbind lib_bind]; [|done].
  destruct (pdf_paragraph enc "Last Modified" Heading4) as [[]|e];
    cbn [mbind lib_bind]; [|done].
  destruct (lib_for_each grouped _ _) as [t|e] eqn:Hloop; cbn [mbind lib_bind]; [|done].
  destruct (pdf_build enc t) as [[]|e]; cbn [mbind lib_bind]; [|done].
  intros [= <-]. unfold generate_pdf.
  eapply lib_for_each_Ok; [|exact Hloop].
  intros acc [category items] acc' _. destruct (truthy items); [|by intros [= <-]].
  destruct (pdf_paragraph enc category Heading4) as [[]|e]; cbn [mbind lib_bind]; [|done].
  intros Hinner. eapply lib_for_each_Ok; [|exact Hinner].
  intros acc0 [name modified_time] acc1 _.
  destruct (pdf_paragraph enc name BodyText) as [[]|e]; cbn [mbind lib_bind]; [|done].
  by intros [= <-].
Qed.

Lemma ws_cell_lib_Ok (r c : nat) (v : string) (ws ws' : Worksheet) :
  ws_cell_lib enc r c v ws = LibOk ws' → ws' = ws_cell r c v ws.
Proof.
  unfold ws_cell_lib. destruct (xlsx_value enc v) as [[]|e]; cbn [mbind lib_bind]; [|done].
  by intros [= <-].
Qed.

Lemma to_excel_lib_Ok (df : list ExcelRecord) (startrow : nat) (ws ws' : Worksheet) :
  to_excel_lib enc df startrow ws = LibOk ws' → ws' = to_excel df startrow ws.
Proof.
  unfold to_excel_lib, to_excel. destruct df as [|d df']; [by intros [= <-]|].
  destruct (lib_for_each (enumerate 1 excel_columns) _ ws) as [ws1|e] eqn:Hlabels;
    cbn [mbind lib_bind]; [|done].
  intros Hbody.
  apply (lib_for_each_Ok
           (fun ws '(col, (label, _)) => ws_cell (startrow + 1) col label ws))
    in Hlabels; [|intros acc [col [label field]] acc' _; apply ws_cell_lib_Ok].
  apply (lib_for_each_Ok
           (fun ws '(col, (_, field)) =>
              fold_left
                (fun ws '(i, record) =>
                   ws_cell (startrow + 2 + i) col (field record) ws)
                (enumerate 0 (d :: df')) ws))
    in Hbody.
  - by rewrite Hbody, Hlabels.
  - intros acc [col [label field]] acc' _ Hcolumn.
    apply (lib_for_each_Ok
             (fun ws '(i, record) =>
                ws_cell (startrow + 2 + i) col (field record) ws))
      in Hcolumn; [done|].
    intros acc0 [i record] acc1 _. apply ws_cell_lib_Ok.
Qed.

Lemma generate_excel_lib_Ok (grouped : Grouped) (sheet : Worksheet) :
  generate_excel_lib enc grouped = LibOk sheet → sheet = generate_excel grouped.
Proof.
  unfold generate_excel_lib, generate_excel. cbv zeta.
  destruct (to_excel_lib enc _ 1 ws_empty) as [ws1|e] eqn:Hframe;
    cbn [mbind lib_bind]; [|done].
  apply to_excel_lib_Ok in Hframe as ->.
  destruct (lib_for_each (enumerate 1 _) _ _) as [ws2|e] eqn:Hheaders;
    cbn [mbind lib_bind]; [|done].
  destruct (lib_for_each (enumerate 0 _) _ ws2) as [ws3|e] eqn:Hrows;
    cbn [mbind lib_bind]; [|done].
  destruct (xlsx_save enc ws3) as [[]|e]; cbn [mbind lib_bind]; [|done].
  intros [= <-].
  apply (lib_for_each_Ok (fun ws '(col_num, value) => ws_cell 1 col_num value ws))
    in Hheaders; [|intros acc [col_num value] acc' _; apply ws_cell_lib_Ok].
  apply (lib_for_each_Ok
           (fun ws '(index, row) =>
              let ws := ws_cell (index + 2) 1 (col_category_file_name row) ws in
              ws_cell (index + 2) 2 (col_last_modified row) ws))
    in Hrows.
  - by rewrite Hrows, Hheaders.
  - intros acc [index row] acc' _.
    destruct (ws_cell_lib enc (index + 2) 1 _ acc) as [ws'|e] eqn:Hfirst;
      cbn [mbind lib_bind]; [|done].
    apply ws_cell_lib_Ok in Hfirst as ->. apply ws_cell_lib_Ok.
Qed.

(** What a step of the button body leaves in the session. *)
Lemma generate_if_state (selected : bool) (key : string) (document : Lib E Buffer)
    (st : SessionState) :
  let outcome := generate_if selected key document st in
  category_selection outcome.1 = category_selection st
  ∧ generate_excel_option outcome.1 = generate_excel_option st
  ∧ generate_word_option outcome.1 = generate_word_option st
  ∧ generate_pdf_option outcome.1 = generate_pdf_option st
  ∧ (∀ key' buffer,
       generated_files outcome.1 !! key' = Some buffer →
       generated_files st !! key' = Some buffer
       ∨ (key' = key ∧ document = LibOk buffer))
  ∧ (outcome.2 = None → selected = true →
     ∃ buffer, document = LibOk buffer
               ∧ generated_files outcome.1 !! key = Some buffer)
  ∧ (∀ key' buffer,
       key' ≠ key →
       generated_files st !! key' = Some buffer →
       generated_files outcome.1 !! key' = Some buffer).
Proof.
  unfold generate_if. destruct selected; [destruct document as [buffer|e]|];
    cbn [fst snd store_document category_selection generate_excel_option
         generate_word_option generate_pdf_option generated_files];
    repeat split; try done; try (by left).
  - intros key' buffer'. rewrite lookup_insert.
    destruct (decide (key = key')) as [<-|]; [|by left].
    intros [= <-]. by right.
  - intros _ _. exists buffer. by rewrite lookup_insert_eq.
  - intros key' buffer' Hne. by rewrite lookup_insert_ne.
Qed.

End library_generators.

Ltac button_step :=
  cbn [fst snd fmap lib_fmap option_fmap option_map generate_if store_document
       generated_files category_selection generate_excel_option generate_word_option
       generate_pdf_option].

Ltac destruct_library_calls enc :=
  repeat match goal with
    | |- context [generate_excel_lib enc ?g] =>
        let H := fresh "Hexcel" in
        destruct (generate_excel_lib enc g) as [?|?] eqn:H;
        [apply generate_excel_lib_Ok in H; subst|]; button_step
    | |- context [generate_word_lib enc ?g] =>
        let H := fresh "Hword" in
        destruct (generate_word_lib enc g) as [?|?] eqn:H;
        [apply generate_word_lib_Ok in H; subst|]; button_step
    | |- context [generate_pdf_lib enc ?g] =>
        let H := fresh "Hpdf" in
        destruct (generate_pdf_lib enc g) as [?|?] eqn:H;
        [apply generate_pdf_lib_Ok in H; subst|]; button_step
    end.

Ltac stored_document Hlookup :=
  repeat (rewrite lookup_insert in Hlookup;
          match type of Hlookup with
          | context [decide (?k = ?key)] =>
              destruct (decide (k = key)) as [<-|?];
              [injection Hlookup as <-; right; reflexivity|]
          end);
  by left.

(** The button body, step by step: what it leaves in the session and how
    it can end. *)
Lemma press_generate_outcome {E} (enc : Encoders E) (st : SessionState) :
  category_selection (press_generate enc st).1 = category_selection st
  ∧ generate_excel_option (press_generate enc st).1 = generate_excel_option st
  ∧ generate_word_option (press_generate enc st).1 = generate_word_option st
  ∧ generate_pdf_option (press_generate enc st).1 = generate_pdf_option st
  ∧ (∀ grouped key buffer,
       categorized_data (category_selection st) = Ok grouped →
       generated_files (press_generate enc st).1 !! key = Some buffer →
       generated_files st !! key = Some buffer
       ∨ buffer_of grouped key = Some buffer)
  ∧ (∀ e, (press_generate enc st).2 = Some (PythonError e) →
          categorized_data (category_selection st) = Raise e)
  ∧ ((press_generate enc st).2 = None →
     ∃ grouped,
       categorized_data (category_selection st) = Ok grouped
       ∧ (generate_excel_option st = true →
          generated_files (press_generate enc st).1 !! "excel"
          = Some (ExcelBuffer (generate_excel grouped)))
       ∧ (generate_word_option st = true →
          generated_files (press_generate enc st).1 !! "word"
          = Some (WordBuffer (generate_word grouped)))
       ∧ (generate_pdf_option st = true →
          generated_files (press_generate enc st).1 !! "pdf"
          = Some (PdfBuffer (generate_pdf grouped)))).
Proof.
  destruct st as [excel word pdf files selection]. unfold press_generate.
  button_step.
  destruct (categorized_data selection) as [grouped|e] eqn:Hgrouped.
  - destruct excel, word, pdf; button_step; destruct_library_calls enc;
      (split_and!; [done|done|done|done| | |]);
      try (intros grouped' key buffer [= <-] Hlookup; stored_document Hlookup);
      try done;
      try (intros _; exists grouped; split; [done|];
           split_and!; intros; by simplify_map_eq).
  - button_step. split_and!; try done.
    + intros e' [= <-]. done.
Qed.

(** X14. No stale document is ever kept.  In a session where every stored
    document is the one generated from the stored assignment map, this is
    still so after the assignment loop and change detection of a run, and
    in the state the button body leaves behind, whether it ran to its end
    or was ended by an exception of a library after some documents were
    stored. *)
Theorem X14_documents_match_the_store {E} (enc : Encoders E)
    (st : SessionState) (ui : nat → nat) (items : list FileItem) :
  session_consistent st →
  session_consistent (detect_change (assign_categories ui items) st)
  ∧ session_consistent (press_generate enc st).1.
Proof.
  intros (Hkeys & Hvalid & Hcurrent). split.
  - unfold detect_change.
    destruct (Dict.eqb _ _); cbn [negb]; [done|].
    split; [apply assign_categories_keys|]. split; [apply assign_categories_valid|].
    intros grouped key buffer _. cbn [generated_files]. by rewrite lookup_empty.
  - destruct (press_generate_outcome enc st) as (Hsel & _ & _ & _ & Hfiles & _).
    unfold session_consistent. rewrite Hsel. split; [done|]. split; [done|].
    intros grouped key buffer Hgrouped Hlookup.
    destruct (Hfiles grouped key buffer Hgrouped Hlookup) as [Hold|Hnew]; [|done].
    by apply Hcurrent.
Qed.

(** The name [a<b.txt] with Excel and PDF selected: the sheet is stored,
    then the paragraph of the name is refused. *)
Lemma X14_documents_witness :
  session_consistent ExampleEncoders.st
  ∧ (press_generate ExampleEncoders.enc ExampleEncoders.st).2
    = Some (LibraryError "paraparser: a<b.txt")
  ∧ is_Some (generated_files
               (press_generate ExampleEncoders.enc ExampleEncoders.st).1 !! "excel")
  ∧ session_consistent (press_generate ExampleEncoders.enc ExampleEncoders.st).1.
Proof.
  assert (session_consistent ExampleEncoders.st) as Hinit.
  { split; [apply assign_categories_keys|]. split; [apply assign_categories_valid|].
    intros grouped key buffer _ Hlookup.
    cbn [ExampleEncoders.st generated_files] in Hlookup.
    by rewrite lookup_empty in Hlookup. }
  split; [exact Hinit|]. split; [by vm_compute|].
  split; [by vm_compute; eexists|].
  exact (proj2 (X14_documents_match_the_store ExampleEncoders.enc _
                  (fun _ => 0) [] Hinit)).
Defined.





(** X20. For the store built by the assignment loop, whatever the listed
    files and the state of the selectboxes, the button body is never ended
    by an exception of the program's own code: grouping raises no
    [KeyError], so that only a library call can end it early.  It keeps
    the store, and when it runs to its end each selected format holds the
    document generated from the grouping of the store. *)
Theorem X20_page_store_generates {E} (enc : Encoders E) (ui : nat → nat)
    (items : list FileItem) (st : SessionState) :
  category_selection st = assign_categories ui items →
  (∀ e, (press_generate enc st).2 ≠ Some (PythonError e))
  ∧ category_selection (press_generate enc st).1 = assign_categories ui items
  ∧ ∃ grouped,
      categorized_data (assign_categories ui items) = Ok grouped
      ∧ ((press_generate enc st).2 = None →
         (generate_excel_option st = true →
          generated_files (press_generate enc st).1 !! "excel"
          = Some (ExcelBuffer (generate_excel grouped)))
         ∧ (generate_word_option st = true →
            generated_files (press_generate enc st).1 !! "word"
            = Some (WordBuffer (generate_word grouped)))
         ∧ (generate_pdf_option st = true →
            generated_files (press_generate enc st).1 !! "pdf"
            = Some (PdfBuffer (generate_pdf grouped)))).
Proof.
  intros Hsel.
  destruct (press_generate_outcome enc st) as (Hkeep & _ & _ & _ & _ & Hpython & Hdone).
  rewrite Hsel in Hkeep, Hpython, Hdone.
  split; [|split; [done|]].
  - intros e He. apply Hpython in He. by rewrite assign_categories_grouped in He.
  - eexists. split; [apply assign_categories_grouped|].
    intros Hnone. destruct (Hdone Hnone) as (grouped & Hgrouped & Hdocs).
    rewrite assign_categories_grouped in Hgrouped. injection Hgrouped as <-.
    exact Hdocs.
Qed.

(** The store of two files named [a.txt], Excel and Word selected: the
    body runs to its end; with [a<b.txt] and PDF it is ended by the
    library, not by the program. *)
Lemma X20_page_store_witness :
  (press_generate ExampleEncoders.enc
     (detect_change (assign_categories SameName.ui SameName.items) ExampleSession.st)).2
  = None
  ∧ is_Some (generated_files
               (press_generate ExampleEncoders.enc
                  (detect_change (assign_categories SameName.ui SameName.items)
                                 ExampleSession.st)).1 !! "word")
  ∧ ∀ e, (press_generate ExampleEncoders.enc ExampleEncoders.st).2
         ≠ Some (PythonError e).
Proof.
  assert ((press_generate ExampleEncoders.enc
             (detect_change (assign_categories SameName.ui SameName.items)
                            ExampleSession.st)).2 = None) as Hdone
    by (by vm_compute).
  split; [exact Hdone|]. split.
  - destruct (X20_page_store_generates ExampleEncoders.enc SameName.ui SameName.items
                (detect_change (assign_categories SameName.ui SameName.items)
                               ExampleSession.st) eq_refl)
      as (_ & _ & grouped & _ & Hdocs).
    destruct (Hdocs Hdone) as (_ & Hword & _). rewrite (Hword eq_refl). by eexists.
  - exact (proj1 (X20_page_store_generates ExampleEncoders.enc (fun _ => 0)
                    ExampleEncoders.items ExampleEncoders.st eq_refl)).
Defined.
